(** * The Debian packaging helper [package/src/build.py]

    A shallow embedding of the script and the statements of its
    specification.  The script is a straight line of filesystem queries,
    one prompt, two guards and seven shell commands; it is modelled as a
    program in a small state-and-stop monad over a world made of

    - a filesystem: a finite map from absolute paths to nodes,
    - the lines waiting on standard input,
    - the lines written to standard output,
    - the commands handed to [os.system], each with its exit status.

    Modelling conventions.
    - There are no symbolic links, so [Path.resolve()] leaves the
      normalised absolute paths the script computes unchanged.
    - The location of the script contains no character the shell treats
      specially: the command lines built with f-strings are recorded as the
      argument vectors the shell hands to [rm], [cp] and [dpkg-deb].
    - Permissions and disk space are not modelled: [rm -r] and [cp] fail
      only for the reasons a path map can express.
    - [rm -r] and [cp] follow POSIX; the archiver [dpkg-deb -b] is an
      opaque external tool and is a parameter of the script. *)

From Stdlib Require Import ZArith String Ascii List.
From Stdlib Require Import Strings.Byte.
From stdpp Require Import base option list strings gmap fin_maps.

Local Open Scope string_scope.
Local Open Scope Z_scope.
Local Open Scope list_scope.

(** ** Paths and the filesystem *)

(** An absolute path is the list of its components below the root. *)
Abbreviation path := (list string).

Inductive node : Type :=
| Dir
| File (content : list byte).

Abbreviation FS := (gmap path node).

(** [p / c] of [pathlib]. *)
Definition child (p : path) (c : string) : path := p ++ [c].

Notation "p // c" := (child p c) (at level 40, left associativity).

(** [Path.parent]: the parent of the root is the root. *)
Definition parent (p : path) : path := removelast p.

(** [Path.name], the final component. *)
Definition basename (p : path) : string := List.last p EmptyString.

(** [str(path)] as it is interpolated in f-strings. *)
Definition show_path (p : path) : string :=
  match p with
  | [] => "/"
  | _ => String.concat EmptyString (List.map (fun c => ("/" ++ c)%string) p)
  end.

Definition exists_in (f : FS) (p : path) : bool :=
  match f !! p with Some _ => true | None => false end.

Definition is_dir (f : FS) (p : path) : bool :=
  match f !! p with Some Dir => true | _ => false end.

Definition is_file (f : FS) (p : path) : bool :=
  match f !! p with Some (File _) => true | _ => false end.

(** A path map is a filesystem when every entry below the root sits in a
    directory, and the root is a directory. *)
Definition wf_fs (f : FS) : Prop :=
  is_dir f [] = true ∧ map_Forall (λ p _, is_dir f (parent p) = true) f.

(** The part of a filesystem at and below a path. *)
Definition subtree (d : path) (f : FS) : FS :=
  filter (λ kv, d `prefix_of` kv.1) f.

(** ** System calls and shell commands *)

Inductive exn : Type :=
| EOFError
| FileExistsError
| FileNotFoundError
| NotADirectoryError.

(** [os.mkdir p] on the filesystem: the new tree, or the [OSError] raised. *)
Definition mkdir (p : path) (f : FS) : exn + FS :=
  match f !! p with
  | Some _ => inl FileExistsError
  | None =>
      match f !! parent p with
      | Some Dir => inr (<[p := Dir]> f)
      | Some (File _) => inl NotADirectoryError
      | None => inl FileNotFoundError
      end
  end.

Inductive command : Type :=
| Rm_r (target : path)
| Cp (src dst : path)
| Dpkg_deb_b (dir out : path).

(** The external archiver: from the tree and the directory to pack, either
    the bytes of the archive it writes (exit status 0) or the non-zero exit
    status it fails with, nothing written. *)
Definition Archiver : Type := FS → path → Z + list byte.

(** [rm -r p]: removes [p] and everything below it. *)
Definition rm_r (p : path) (f : FS) : FS * Z :=
  if exists_in f p
  then (filter (λ kv, ¬ p `prefix_of` kv.1) f, 0)
  else (f, 1).

(** [cp src dst] without [-r]: copies one regular file, into [dst] when
    [dst] is a directory, onto [dst] otherwise. *)
Definition cp (src dst : path) (f : FS) : FS * Z :=
  match f !! src with
  | Some (File b) =>
      match f !! dst with
      | Some Dir =>
          let t := dst // basename src in
          match f !! t with
          | Some Dir => (f, 1)
          | _ => if decide (t = src) then (f, 1) else (<[t := File b]> f, 0)
          end
      | Some (File _) =>
          if decide (dst = src) then (f, 1) else (<[dst := File b]> f, 0)
      | None =>
          if is_dir f (parent dst) then (<[dst := File b]> f, 0) else (f, 1)
      end
  | _ => (f, 1)
  end.

(** [dpkg-deb -b dir out]: on success the archive is written at [out]
    (an existing directory there is left alone). *)
Definition dpkg_deb_b (A : Archiver) (dir out : path) (f : FS) : FS * Z :=
  match A f dir with
  | inr b =>
      if is_dir f out then (f, 0)
      else if is_dir f (parent out) then (<[out := File b]> f, 0)
      else (f, 2)
  | inl st => (f, st)
  end.

Definition exec (A : Archiver) (c : command) (f : FS) : FS * Z :=
  match c with
  | Rm_r p => rm_r p f
  | Cp s d => cp s d f
  | Dpkg_deb_b d o => dpkg_deb_b A d o f
  end.

(** A sequence of commands: the final tree and the exit statuses. *)
Fixpoint exec_all (A : Archiver) (cs : list command) (f : FS)
  : FS * list (command * Z) :=
  match cs with
  | [] => (f, [])
  | c :: cs' =>
      let r := exec A c f in
      let r' := exec_all A cs' r.1 in
      (r'.1, (c, r.2) :: r'.2)
  end.

(** ** The world and the script monad *)

Record World : Type := mkWorld {
  fs : FS;
  stdin : list string;
  stdout : list string;
  trace : list (command * Z)
}.

(** How a run stops early: [exit(code)] or an uncaught exception. *)
Inductive stop : Type :=
| Exit (code : option Z)
| Raise (e : exn).

Definition M (A : Type) : Type := World → (A + stop) * World.

#[global] Instance M_ret : MRet M := λ A a w, (inl a, w).

#[global] Instance M_bind : MBind M :=
  λ A B k m w, match m w with
               | (inl a, w') => k a w'
               | (inr s, w') => (inr s, w')
               end.

Definition when (b : bool) (m : M unit) : M unit := if b then m else mret tt.

(** *** Primitives *)

Definition print (s : string) : M unit :=
  λ w, (inl tt, mkWorld (fs w) (stdin w) (stdout w ++ [s]) (trace w)).

(** [input(prompt)]: writes the prompt, reads one line without its newline,
    raises [EOFError] when standard input is exhausted. *)
Definition input (prompt : string) : M string :=
  λ w, match stdin w with
       | l :: rest => (inl l, mkWorld (fs w) rest (stdout w ++ [prompt]) (trace w))
       | [] => (inr (Raise EOFError), mkWorld (fs w) [] (stdout w ++ [prompt]) (trace w))
       end.

Definition os_path_exists (p : path) : M bool :=
  λ w, (inl (exists_in (fs w) p), w).

Definition os_mkdir (p : path) : M unit :=
  λ w, match mkdir p (fs w) with
       | inr f => (inl tt, mkWorld f (stdin w) (stdout w) (trace w))
       | inl e => (inr (Raise e), w)
       end.

(** [os.system]: runs the command, never raises, returns the exit status. *)
Definition os_system (A : Archiver) (c : command) : M Z :=
  λ w, let '(f, st) := exec A c (fs w) in
       (inl st, mkWorld f (stdin w) (stdout w) (trace w ++ [(c, st)])).

(** [exit(code)] raises [SystemExit]. *)
Definition exit_ {A} (code : option Z) : M A := λ w, (inr (Exit code), w).

(** [str.lower] on the bytes of a line. *)
Definition lower_ascii (a : ascii) : ascii :=
  let n := N_of_ascii a in
  if ((65 <=? n) && (n <=? 90))%N then ascii_of_N (n + 32) else a.

Fixpoint lower (s : string) : string :=
  match s with
  | EmptyString => EmptyString
  | String a r => String (lower_ascii a) (lower r)
  end.

(** ** The script *)

Section Script.

(** [os.path.abspath(__file__)] and the archiver found on the machine. *)
Variable this_file : path.
Variable A : Archiver.

Definition pkg_dir : path := parent (parent this_file).

Definition otter_deb_path : path := pkg_dir // "otterlang" // "DEBIAN".

Definition otter_bin_path : path :=
  parent pkg_dir // "target" // "release" // "otter".

Definition deb_bin : path := otter_deb_path // "bin".

Definition metadata_names : list string :=
  ["control"; "changelog"; "copyright"; "rules"].

Definition deb_file : path := pkg_dir // "otterlang.deb".

Definition missing_msg : string := "First you need to build the binaries".

Definition clear_prompt : string :=
  "An output appears to already exist. Clear it? [y/N]: ".

(** [clear.lower() == 'y'] *)
Definition affirmative (clear : string) : bool := String.eqb (lower clear) "y".

(** Lines 6 to 14. *)
Definition clear_or_create : M unit :=
  e ← os_path_exists otter_deb_path;
  when e (clear ← input clear_prompt;
          when (affirmative clear)
               (os_system A (Rm_r otter_deb_path);; mret tt));;
  e ← os_path_exists otter_deb_path;
  when (negb e)
       (pe ← os_path_exists (parent otter_deb_path);
        when (negb pe) (os_mkdir (parent otter_deb_path));;
        os_mkdir otter_deb_path).

(** Lines 16 to 19. *)
Definition verify_binary : M unit :=
  e ← os_path_exists otter_bin_path;
  when (negb e) (print missing_msg;; exit_ None).

(** Lines 21 to 28. *)
Definition populate : M unit :=
  e ← os_path_exists deb_bin;
  when (negb e) (os_mkdir deb_bin);;
  os_system A (Cp otter_bin_path deb_bin);;
  os_system A (Cp (pkg_dir // "control") otter_deb_path);;
  os_system A (Cp (pkg_dir // "changelog") otter_deb_path);;
  os_system A (Cp (pkg_dir // "copyright") otter_deb_path);;
  os_system A (Cp (pkg_dir // "rules") otter_deb_path);;
  mret tt.

(** Line 33. *)
Definition archive : M unit :=
  os_system A (Dpkg_deb_b (parent otter_deb_path) deb_file);; mret tt.

Definition banner : string :=
  ("Will create at " ++ show_path otter_deb_path)%string.

Definition build : M unit :=
  print banner;;
  clear_or_create;;
  verify_binary;;
  populate;;
  archive.

(** The commands of the population step, in the order they are issued. *)
Definition copy_cmds : list command :=
  Cp otter_bin_path deb_bin
  :: List.map (λ n, Cp (pkg_dir // n) otter_deb_path) metadata_names.

Definition archive_cmd : command :=
  Dpkg_deb_b (parent otter_deb_path) deb_file.

(** What remains of the script once the staging directory is set up. *)
Definition finish : M unit := verify_binary;; populate;; archive.

(** A run of the script as a fresh process: nothing printed yet, no
    command issued yet. *)
Definition run (f : FS) (inp : list string) : (unit + stop) * World :=
  build (mkWorld f inp [] []).

End Script.

(** The status the process ends with: 0 at the end of the script and for
    [exit()] without a code, 1 for an uncaught exception. *)
Definition exit_status (r : unit + stop) : Z :=
  match r with
  | inl _ => 0
  | inr (Exit None) => 0
  | inr (Exit (Some n)) => n
  | inr (Raise _) => 1
  end.

(** Executable check of [wf_fs]. *)
Definition wf_fsb (f : FS) : bool :=
  is_dir f [] && forallb (λ kv, is_dir f (parent kv.1)) (map_to_list f).

(** ** Sample trees

    The tool sits at [/repo/package/src/build.py]. *)

Definition tool : path := ["repo"; "package"; "src"; "build.py"].

(** The source tree without the compiler built. *)
Definition unbuilt_tree : FS :=
  list_to_map
    [ ([], Dir);
      (["repo"], Dir);
      (["repo"; "package"], Dir);
      (["repo"; "package"; "src"], Dir);
      (["repo"; "package"; "src"; "build.py"], File [x23]);
      (["repo"; "package"; "control"], File [x50; x6b; x67]);
      (["repo"; "package"; "changelog"], File [x6f; x74]);
      (["repo"; "package"; "copyright"], File [x4d; x49; x54]);
      (["repo"; "package"; "rules"], File [x25; x3a]) ].

(** The source tree with the release binary built, nothing staged yet. *)
Definition fresh_tree : FS :=
  <[ ["repo"; "target"; "release"; "otter"] := File [x7f; x45; x4c; x46] ]>
  (<[ ["repo"; "target"; "release"] := Dir ]>
   (<[ ["repo"; "target"] := Dir ]> unbuilt_tree)).

(** What an earlier packaging left behind: an old binary, an old control
    file and a file the script knows nothing of. *)
Definition leftovers (f : FS) : FS :=
  <[ ["repo"; "package"; "otterlang"; "DEBIAN"; "postinst"] := File [x21] ]>
  (<[ ["repo"; "package"; "otterlang"; "DEBIAN"; "control"] := File [x6f; x6c; x64] ]>
   (<[ ["repo"; "package"; "otterlang"; "DEBIAN"; "bin"; "otter"] := File [x00] ]>
    (<[ ["repo"; "package"; "otterlang"; "DEBIAN"; "bin"] := Dir ]>
     (<[ ["repo"; "package"; "otterlang"; "DEBIAN"] := Dir ]>
      (<[ ["repo"; "package"; "otterlang"] := Dir ]> f))))).

Definition stale_tree : FS := leftovers fresh_tree.

Definition stale_unbuilt_tree : FS := leftovers unbuilt_tree.

(** The source tree of a checkout that lacks [rules]. *)
Definition tree_without_rules : FS :=
  delete ["repo"; "package"; "rules"] fresh_tree.


(** Two trees look the same to the population step: they agree inside
    the staging directory, on the release binary, on the four metadata
    sources, and on whether [otterlang] is a directory. *)
Definition same_inputs (tf : path) (f g : FS) : Prop :=
  (∀ p, otter_deb_path tf `prefix_of` p → f !! p = g !! p) ∧
  f !! otter_bin_path tf = g !! otter_bin_path tf ∧
  (∀ n, n ∈ metadata_names → f !! (pkg_dir tf // n) = g !! (pkg_dir tf // n)) ∧
  is_dir f (pkg_dir tf // "otterlang") = is_dir g (pkg_dir tf // "otterlang").

(** An archiver that packs, and one that fails. *)
Definition packing (pack : FS → path → list byte) : Archiver :=
  λ f d, inr (pack f d).

Definition sample_archiver : Archiver :=
  packing (λ _ _, [x21; x3c; x61; x72; x63; x68; x3e]).

Definition failing_archiver : Archiver := λ _ _, inl 2.

(** ** Paths *)

#[global] Arguments child : simpl never.
#[global] Arguments parent : simpl never.
#[global] Arguments basename : simpl never.

Lemma parent_child p c : parent (p // c) = p.
Proof. unfold parent, child. apply removelast_last. Qed.

Lemma basename_child p c : basename (p // c) = c.
Proof. unfold basename, child. apply last_last. Qed.

Lemma parent_cases (p : path) : p = parent p ∨ ∃ x, p = parent p // x.
Proof.
  destruct p as [|a p] using rev_ind; [by left|].
  right. exists a. fold (child p a). by rewrite parent_child.
Qed.

Lemma child_inj p q c d : p // c = q // d → p = q ∧ c = d.
Proof. unfold child. intros H. by apply app_inj_tail in H. Qed.

Lemma child_neq_self (p : path) c k : p ≠ (p ++ c :: k).
Proof.
  intros H. apply (f_equal length) in H.
  rewrite length_app in H. simpl in H. lia.
Qed.

(** ** The prompt *)

Lemma lower_ascii_y a :
  lower_ascii a = "y"%char → a = "y"%char ∨ a = "Y"%char.
Proof.
  destruct a as [[] [] [] [] [] [] [] []]; vm_compute; intros H;
    first [discriminate H | by left | by right].
Qed.

Lemma affirmative_iff r : affirmative r = true ↔ r = "y" ∨ r = "Y".
Proof.
  unfold affirmative. split.
  - intros H. apply String.eqb_eq in H.
    destruct r as [|a [|b r]]; simpl in H; try discriminate H.
    injection H as H. destruct (lower_ascii_y a H) as [-> | ->]; auto.
  - by intros [-> | ->].
Qed.

(** ** The shell commands on the filesystem *)

Lemma exists_in_true f p : exists_in f p = true ↔ is_Some (f !! p).
Proof.
  unfold exists_in. destruct (f !! p); split; intros H; eauto.
  - discriminate H.
  - by destruct H.
Qed.

Lemma exists_in_false f p : exists_in f p = false ↔ f !! p = None.
Proof. unfold exists_in. by destruct (f !! p). Qed.

Lemma is_dir_true f p : is_dir f p = true ↔ f !! p = Some Dir.
Proof. unfold is_dir. by destruct (f !! p) as [[]|]. Qed.

Lemma is_dir_exists f p : is_dir f p = true → exists_in f p = true.
Proof. unfold is_dir, exists_in. by destruct (f !! p) as [[]|]. Qed.

Lemma wf_parent f p n : wf_fs f → f !! p = Some n → f !! parent p = Some Dir.
Proof. intros [_ H] Hp. apply is_dir_true. exact (H p n Hp). Qed.

Lemma wf_absent_child f p c : wf_fs f → is_dir f p = false → f !! (p // c) = None.
Proof.
  intros Hwf Hp. destruct (f !! (p // c)) eqn:E; [|done].
  apply (wf_parent _ _ _ Hwf) in E. rewrite parent_child in E.
  apply is_dir_true in E. congruence.
Qed.

Lemma rm_r_under p f q :
  exists_in f p = true → p `prefix_of` q → (rm_r p f).1 !! q = None.
Proof.
  intros He Hq. unfold rm_r. rewrite He. simpl.
  apply map_lookup_filter_None. right. intros x _ H. by apply H.
Qed.

Lemma rm_r_other p f q :
  ¬ p `prefix_of` q → (rm_r p f).1 !! q = f !! q.
Proof.
  intros Hq. unfold rm_r. destruct (exists_in f p); [|done]. simpl.
  destruct (f !! q) as [n|] eqn:E.
  - apply map_lookup_filter_Some. by split.
  - apply map_lookup_filter_None. by left.
Qed.

Lemma rm_r_status p f : exists_in f p = true → (rm_r p f).2 = 0.
Proof. intros He. unfold rm_r. by rewrite He. Qed.

Lemma cp_other src dst f p :
  p ≠ dst → p ≠ dst // basename src → (cp src dst f).1 !! p = f !! p.
Proof.
  intros H1 H2. unfold cp.
  destruct (f !! src) as [[|b]|]; try done.
  destruct (f !! dst) as [[|c]|].
  - destruct (f !! (dst // basename src)) as [[|c]|]; try done;
      case_decide; simpl; try done; by rewrite lookup_insert_ne.
  - case_decide; simpl; try done. by rewrite lookup_insert_ne.
  - destruct (is_dir f (parent dst)); simpl; try done.
    by rewrite lookup_insert_ne.
Qed.

(** [cp] never replaces or creates a directory. *)
Lemma cp_is_dir src dst f p : is_dir (cp src dst f).1 p = is_dir f p.
Proof.
  unfold cp.
  destruct (f !! src) as [[|b]|]; try done.
  destruct (f !! dst) as [[|c]|] eqn:Ed.
  - destruct (f !! (dst // basename src)) as [[|c]|] eqn:Et; try done;
      case_decide; simpl; try done; unfold is_dir;
      (destruct (decide (p = dst // basename src)) as [->|];
       [by rewrite lookup_insert_eq, Et | by rewrite lookup_insert_ne]).
  - case_decide; simpl; try done. unfold is_dir.
    destruct (decide (p = dst)) as [->|];
      [by rewrite lookup_insert_eq, Ed | by rewrite lookup_insert_ne].
  - destruct (is_dir f (parent dst)); simpl; try done. unfold is_dir.
    destruct (decide (p = dst)) as [->|];
      [by rewrite lookup_insert_eq, Ed | by rewrite lookup_insert_ne].
Qed.

(** [cp] never removes an entry. *)
Lemma cp_exists src dst f p :
  exists_in f p = true → exists_in (cp src dst f).1 p = true.
Proof.
  intros He.
  destruct (decide (p = dst ∨ p = dst // basename src)) as [Hp|Hp].
  - unfold cp.
    destruct (f !! src) as [[|b]|]; try done.
    destruct (f !! dst) as [[|c]|] eqn:Ed.
    + destruct (f !! (dst // basename src)) as [[|c]|]; try done;
        case_decide; simpl; try done; unfold exists_in;
        (destruct (decide (p = dst // basename src)) as [->|];
         [by rewrite lookup_insert_eq | by rewrite lookup_insert_ne]).
    + case_decide; simpl; try done. unfold exists_in.
      destruct (decide (p = dst)) as [->|];
        [by rewrite lookup_insert_eq | by rewrite lookup_insert_ne].
    + destruct (is_dir f (parent dst)); simpl; try done. unfold exists_in.
      destruct (decide (p = dst)) as [->|];
        [by rewrite lookup_insert_eq | by rewrite lookup_insert_ne].
  - unfold exists_in. rewrite cp_other; [done | tauto | tauto].
Qed.

(** Copying a regular file into a directory that holds no directory of
    that name writes the source's bytes there. *)
Lemma cp_into_dir src dst f b :
  f !! src = Some (File b) → f !! dst = Some Dir →
  is_dir f (dst // basename src) = false → dst // basename src ≠ src →
  cp src dst f = (<[dst // basename src := File b]> f, 0).
Proof.
  intros Hs Hd Ht Hne. unfold cp. rewrite Hs, Hd.
  unfold is_dir in Ht.
  destruct (f !! (dst // basename src)) as [[|c]|]; try done;
    by rewrite decide_False.
Qed.

(** A copy whose source is not a regular file changes nothing. *)
Lemma cp_no_source src dst f :
  is_file f src = false → cp src dst f = (f, 1).
Proof. unfold is_file, cp. by destruct (f !! src) as [[|b]|]. Qed.

Lemma dpkg_other A d out f p :
  p ≠ out → (dpkg_deb_b A d out f).1 !! p = f !! p.
Proof.
  intros Hp. unfold dpkg_deb_b. destruct (A f d); [done|].
  destruct (is_dir f out); [done|].
  destruct (is_dir f (parent out)); [|done]. simpl.
  by rewrite lookup_insert_ne.
Qed.

Lemma dpkg_fail A d out f st :
  A f d = inl st → dpkg_deb_b A d out f = (f, st).
Proof. intros H. unfold dpkg_deb_b. by rewrite H. Qed.

Lemma dpkg_writes A d out f b :
  A f d = inr b → is_dir f out = false → is_dir f (parent out) = true →
  dpkg_deb_b A d out f = (<[out := File b]> f, 0).
Proof. intros H H1 H2. unfold dpkg_deb_b. by rewrite H, H1, H2. Qed.

(** ** The paths of the script *)

(** Two paths built with [//] differ as soon as their components, read
    from the last one, differ or run out at different depths. *)
Ltac path_neq :=
  let H := fresh "Hpq" in
  unfold deb_file, deb_bin, otter_bin_path, otter_deb_path, child;
  intros H; apply (f_equal (@rev string)) in H;
  repeat rewrite rev_unit in H;
  first
    [ discriminate H
    | congruence
    | apply (f_equal (@length string)) in H; simpl in H; lia ].

Section Paths.

Variable tf : path.

Abbreviation pkg := (pkg_dir tf).
Abbreviation deb := (otter_deb_path tf).
Abbreviation bin := (otter_bin_path tf).

Lemma parent_deb : parent deb = pkg // "otterlang".
Proof. unfold otter_deb_path. apply parent_child. Qed.

Lemma parent_parent_deb : parent (parent deb) = pkg.
Proof. rewrite parent_deb. apply parent_child. Qed.

Lemma parent_deb_bin : parent (deb_bin tf) = deb.
Proof. apply parent_child. Qed.

Lemma parent_deb_file : parent (deb_file tf) = pkg.
Proof. apply parent_child. Qed.

Lemma basename_bin : basename bin = "otter".
Proof. apply basename_child. Qed.

Lemma deb_prefix_self : deb `prefix_of` deb.
Proof. done. Qed.

Lemma deb_prefix_child p c : deb `prefix_of` p → deb `prefix_of` p // c.
Proof. intros H. unfold child. by apply prefix_app_r. Qed.

(** Nothing directly inside the package directory lies in the staging
    directory. *)
Lemma sibling_not_staged c : ¬ deb `prefix_of` pkg // c.
Proof.
  intros [k Hk]. apply (f_equal length) in Hk.
  unfold otter_deb_path, child in Hk.
  rewrite !length_app in Hk. simpl in Hk. lia.
Qed.

Lemma bin_not_staged : ¬ deb `prefix_of` bin.
Proof.
  intros [k Hk]. unfold otter_bin_path, otter_deb_path, child in Hk.
  destruct (parent_cases pkg) as [E | [x E]].
  - rewrite <- E in Hk. rewrite <- !(assoc_L (++)) in Hk.
    apply app_inv_head in Hk. discriminate Hk.
  - rewrite E in Hk at 2. unfold child in Hk.
    rewrite <- !(assoc_L (++)) in Hk.
    apply app_inv_head in Hk. discriminate Hk.
Qed.

Lemma pkg_not_staged : ¬ deb `prefix_of` pkg.
Proof.
  intros [k Hk]. apply (f_equal length) in Hk.
  unfold otter_deb_path, child in Hk.
  rewrite !length_app in Hk. simpl in Hk. lia.
Qed.

Lemma deb_neq_bin : deb ≠ bin.
Proof. path_neq. Qed.

Lemma parent_deb_neq_bin : pkg // "otterlang" ≠ bin.
Proof. path_neq. Qed.

Lemma deb_neq_parent : deb ≠ pkg // "otterlang".
Proof. path_neq. Qed.

Lemma staged_neq_source c d : deb // c ≠ pkg // d.
Proof. path_neq. Qed.

Lemma staged_child_inj c d : c ≠ d → deb // c ≠ deb // d.
Proof. intros H E. by apply child_inj in E as [_ E]. Qed.

Lemma staged_otter_neq_bin : deb_bin tf // "otter" ≠ bin.
Proof. path_neq. Qed.

End Paths.

(** ** The phases of a run *)

Section Phases.

Variable tf : path.
Variable A : Archiver.

Abbreviation pkg := (pkg_dir tf).
Abbreviation deb := (otter_deb_path tf).
Abbreviation bin := (otter_bin_path tf).
Abbreviation pdeb := (pkg_dir tf // "otterlang").

Lemma os_system_run c w :
  os_system A c w =
    (inl (exec A c (fs w)).2,
     mkWorld (exec A c (fs w)).1 (stdin w) (stdout w)
             (trace w ++ [(c, (exec A c (fs w)).2)])).
Proof. unfold os_system. by destruct (exec A c (fs w)). Qed.

Lemma build_run w :
  build tf A w =
    match clear_or_create tf A
            (mkWorld (fs w) (stdin w) (stdout w ++ [banner tf]) (trace w)) with
    | (inl _, w2) => finish tf A w2
    | (inr s, w2) => (inr s, w2)
    end.
Proof. reflexivity. Qed.

(** Without a staging directory nothing is asked: the directory and, when
    needed, its parent are created. *)
Lemma clear_or_create_absent f i o t :
  exists_in f deb = false →
  clear_or_create tf A (mkWorld f i o t) =
    match f !! pdeb with
    | Some Dir => (inl tt, mkWorld (<[deb := Dir]> f) i o t)
    | Some (File _) => (inr (Raise NotADirectoryError), mkWorld f i o t)
    | None =>
        match f !! pkg with
        | Some Dir =>
            (inl tt, mkWorld (<[deb := Dir]> (<[pdeb := Dir]> f)) i o t)
        | Some (File _) => (inr (Raise NotADirectoryError), mkWorld f i o t)
        | None => (inr (Raise FileNotFoundError), mkWorld f i o t)
        end
    end.
Proof.
  intros He. pose proof He as Hn. apply exists_in_false in Hn.
  unfold clear_or_create, mbind, M_bind, mret, M_ret, os_path_exists, when.
  simpl. rewrite He. simpl. rewrite He. simpl. rewrite parent_deb.
  unfold exists_in, os_mkdir, mkdir.
  destruct (f !! pdeb) as [[|b]|] eqn:Ep; simpl.
  - by rewrite Hn, parent_deb, Ep.
  - by rewrite Hn, parent_deb, Ep.
  - rewrite Ep, parent_child.
    destruct (f !! pkg) as [[|b]|]; simpl; try done.
    rewrite lookup_insert_ne by (apply not_eq_sym, deb_neq_parent).
    by rewrite Hn, parent_deb, lookup_insert_eq.
Qed.

Lemma clear_or_create_eof f o t :
  exists_in f deb = true →
  clear_or_create tf A (mkWorld f [] o t) =
    (inr (Raise EOFError), mkWorld f [] (o ++ [clear_prompt]) t).
Proof.
  intros He. unfold clear_or_create, mbind, M_bind, mret, M_ret, os_path_exists, when. simpl.
  by rewrite He.
Qed.

(** Any answer that is not affirmative leaves the tree as it is. *)
Lemma clear_or_create_declined f r i o t :
  exists_in f deb = true → affirmative r = false →
  clear_or_create tf A (mkWorld f (r :: i) o t) =
    (inl tt, mkWorld f i (o ++ [clear_prompt]) t).
Proof.
  intros He Hr. unfold clear_or_create, mbind, M_bind, mret, M_ret, os_path_exists, when. simpl.
  rewrite He. simpl. rewrite Hr. simpl. by rewrite He.
Qed.

(** An affirmative answer removes the tree, and the script goes on as
    from a tree without staging directory. *)
Lemma clear_or_create_accepted f r i o t :
  exists_in f deb = true → affirmative r = true →
  clear_or_create tf A (mkWorld f (r :: i) o t) =
    clear_or_create tf A
      (mkWorld (rm_r deb f).1 i (o ++ [clear_prompt]) (t ++ [(Rm_r deb, 0)])).
Proof.
  intros He Hr.
  assert (Hg : exists_in (rm_r deb f).1 deb = false).
  { apply exists_in_false. by apply rm_r_under. }
  unfold clear_or_create, mbind, M_bind, mret, M_ret, os_path_exists, when. simpl.
  rewrite He, Hg. simpl. rewrite Hr. simpl.
  rewrite os_system_run. simpl. rewrite Hg. simpl.
  by rewrite (rm_r_status _ _ He).
Qed.

(** A missing release binary stops the run where it stands. *)
Lemma finish_missing w :
  exists_in (fs w) bin = false →
  finish tf A w =
    (inr (Exit None),
     mkWorld (fs w) (stdin w) (stdout w ++ [missing_msg]) (trace w)).
Proof.
  intros He.
  unfold finish, verify_binary, mbind, M_bind, os_path_exists, when.
  simpl. by rewrite He.
Qed.

(** With the release binary in place the run goes through the five copies
    and the archiver, unless [bin] cannot be created. *)
Lemma finish_present w :
  exists_in (fs w) bin = true →
  finish tf A w =
    match (if exists_in (fs w) (deb_bin tf) then inr (fs w)
           else mkdir (deb_bin tf) (fs w)) with
    | inl e => (inr (Raise e), w)
    | inr f3 =>
        let r := exec_all A (copy_cmds tf ++ [archive_cmd tf]) f3 in
        (inl tt, mkWorld r.1 (stdin w) (stdout w) (trace w ++ r.2))
    end.
Proof.
  intros He.
  unfold finish, verify_binary, populate, archive, mbind, M_bind, mret, M_ret,
    os_path_exists, when.
  simpl. rewrite He. simpl.
  destruct (exists_in (fs w) (deb_bin tf)); simpl.
  - rewrite !os_system_run. simpl. by rewrite <- !(assoc_L (++)).
  - unfold os_mkdir. destruct (mkdir (deb_bin tf) (fs w)); [done|].
    rewrite !os_system_run. simpl. by rewrite <- !(assoc_L (++)).
Qed.

End Phases.

(** ** The population step on the filesystem *)

Section Population.

Variable tf : path.
Variable A : Archiver.

Abbreviation pkg := (pkg_dir tf).
Abbreviation deb := (otter_deb_path tf).
Abbreviation bin := (otter_bin_path tf).
Abbreviation pdeb := (pkg_dir tf // "otterlang").

(** The tree after the five copies. *)
Abbreviation copied f := (exec_all A (copy_cmds tf) f).1.

Lemma exec_all_app cs1 cs2 f :
  exec_all A (cs1 ++ cs2) f =
    ((exec_all A cs2 (exec_all A cs1 f).1).1,
     (exec_all A cs1 f).2 ++ (exec_all A cs2 (exec_all A cs1 f).1).2).
Proof.
  revert f. induction cs1 as [|c cs1 IH]; intros f; simpl.
  - by destruct (exec_all A cs2 f).
  - by rewrite IH.
Qed.

(** The commands issued are the commands asked for, in order. *)
Lemma exec_all_cmds cs f : (exec_all A cs f).2.*1 = cs.
Proof.
  revert f. induction cs as [|c cs IH]; intros f; simpl; [done|].
  by rewrite IH.
Qed.

Lemma unstaged_neq p q : ¬ deb `prefix_of` p → deb `prefix_of` q → p ≠ q.
Proof. by intros Hp Hq ->. Qed.

Lemma deb_bin_staged : deb `prefix_of` deb_bin tf.
Proof. apply deb_prefix_child, deb_prefix_self. Qed.

(** The copies write inside the staging directory only. *)
Lemma copied_other f p : ¬ deb `prefix_of` p → copied f !! p = f !! p.
Proof.
  intros Hp. simpl.
  rewrite !cp_other;
    first [ done
          | apply (unstaged_neq _ _ Hp);
            auto using deb_prefix_self, deb_prefix_child, deb_bin_staged ].
Qed.

Lemma copied_is_dir f p : is_dir (copied f) p = is_dir f p.
Proof. simpl. by rewrite !cp_is_dir. Qed.

Lemma copied_exists f p : exists_in f p = true → exists_in (copied f) p = true.
Proof. intros H. simpl. by do 5 apply cp_exists. Qed.

(** The release binary lands in [bin/otter]. *)
Lemma copied_binary f b :
  f !! bin = Some (File b) → is_dir f (deb_bin tf) = true →
  is_dir f (deb_bin tf // "otter") = false →
  copied f !! (deb_bin tf // "otter") = Some (File b).
Proof.
  intros Hs Hd Ht. simpl.
  do 4 (rewrite cp_other; [| rewrite ?basename_child; path_neq ..]).
  rewrite cp_into_dir with (b := b); rewrite ?basename_bin; try done.
  - apply lookup_insert_eq.
  - by apply is_dir_true.
  - apply staged_otter_neq_bin.
Qed.

(** Each metadata file lands in the staging directory under its name. *)
Lemma copied_metadata f n b :
  n ∈ metadata_names →
  f !! (pkg // n) = Some (File b) → is_dir f deb = true →
  is_dir f (deb // n) = false →
  copied f !! (deb // n) = Some (File b).
Proof.
  intros Hn Hs Hd Ht. apply is_dir_true in Hd.
  assert (Hb : deb ≠ deb_bin tf) by path_neq.
  assert (Hbo : deb ≠ deb_bin tf // "otter") by path_neq.
  unfold metadata_names in Hn.
  repeat (apply elem_of_cons in Hn as [-> | Hn]); [| | | |by apply elem_of_nil in Hn];
    simpl.
  all: repeat (rewrite cp_other; [| rewrite ?basename_child; path_neq ..]).
  all: rewrite cp_into_dir with (b := b); rewrite ?basename_child;
    [ apply lookup_insert_eq | .. ].
  all: try (apply staged_neq_source).
  all: try (rewrite !cp_is_dir; done).
  all: try (apply is_dir_true; rewrite !cp_is_dir; by apply is_dir_true).
  all: repeat (rewrite cp_other; [| rewrite ?basename_child, ?basename_bin; path_neq ..]).
  all: done.
Qed.

End Population.

(** ** What the clear-or-create step can do *)

Ltac cc_cases tf f i He Hr :=
  let r := fresh "r" in
  destruct (exists_in f (otter_deb_path tf)) eqn:He;
  [ destruct i as [|r i];
    [ rewrite clear_or_create_eof by done
    | destruct (affirmative r) eqn:Hr;
      [ rewrite clear_or_create_accepted by done;
        rewrite clear_or_create_absent
          by (apply exists_in_false; by apply rm_r_under)
      | rewrite clear_or_create_declined by done ] ]
  | rewrite clear_or_create_absent by done ].

Section Clearing.

Variable tf : path.
Variable A : Archiver.

Abbreviation pkg := (pkg_dir tf).
Abbreviation deb := (otter_deb_path tf).
Abbreviation bin := (otter_bin_path tf).
Abbreviation pdeb := (pkg_dir tf // "otterlang").
Abbreviation cc f i o t := (clear_or_create tf A (mkWorld f i o t)).

(** The step ends normally or with an uncaught exception, never with
    [exit]. *)
Lemma cc_result f i o t :
  (cc f i o t).1 = inl tt ∨ ∃ e, (cc f i o t).1 = inr (Raise e).
Proof.
  cc_cases tf f i He Hr; repeat case_match; simpl; eauto.
Qed.

(** The only command it can issue is the removal of the staging
    directory. *)
Lemma cc_trace f i o t :
  trace (cc f i o t).2 = t ∨ trace (cc f i o t).2 = t ++ [(Rm_r deb, 0)].
Proof.
  cc_cases tf f i He Hr; repeat case_match; simpl; eauto.
Qed.


(** It touches the staging directory and its parent only. *)
Lemma cc_other f i o t p :
  ¬ deb `prefix_of` p → p ≠ pdeb → fs (cc f i o t).2 !! p = f !! p.
Proof.
  intros Hp Hq.
  assert (Hd : deb ≠ p) by (intros <-; by apply Hp).
  cc_cases tf f i He Hr; repeat case_match; simpl;
    rewrite ?lookup_insert_ne by done; rewrite ?rm_r_other by done; done.
Qed.

(** When it ends normally the staging path exists. *)
Lemma cc_exists f i o t :
  (cc f i o t).1 = inl tt → exists_in (fs (cc f i o t).2) deb = true.
Proof.
  cc_cases tf f i He Hr; repeat case_match; simpl; try done; intros _;
    unfold exists_in; by rewrite lookup_insert_eq.
Qed.

(** It creates no entry other than the staging directory and its
    parent. *)
Lemma cc_absent_stays f i o t p :
  p ≠ deb → p ≠ pdeb → f !! p = None → fs (cc f i o t).2 !! p = None.
Proof.
  intros Hd Hq Hn.
  assert (Hrm : (rm_r deb f).1 !! p = None).
  { unfold rm_r. destruct (exists_in f deb); simpl; [|done].
    apply map_lookup_filter_None. by left. }
  cc_cases tf f i He Hr; repeat case_match; simpl;
    rewrite ?lookup_insert_ne by done; done.
Qed.

End Clearing.

(** ** What the rest of the run can do *)

Section Finishing.

Variable tf : path.
Variable A : Archiver.

Abbreviation pkg := (pkg_dir tf).
Abbreviation deb := (otter_deb_path tf).
Abbreviation bin := (otter_bin_path tf).
Abbreviation pdeb := (pkg_dir tf // "otterlang").
Abbreviation copied f := (exec_all A (copy_cmds tf) f).1.
Abbreviation archived f := (dpkg_deb_b A (parent deb) (deb_file tf) f).1.

Lemma dpkg_is_dir d out f p :
  is_dir (dpkg_deb_b A d out f).1 p = is_dir f p.
Proof.
  unfold dpkg_deb_b. destruct (A f d); [done|].
  destruct (is_dir f out) eqn:Eo; [done|].
  destruct (is_dir f (parent out)); [|done]. simpl.
  unfold is_dir in *. destruct (decide (p = out)) as [->|].
  - rewrite lookup_insert_eq. by destruct (f !! out) as [[]|].
  - by rewrite lookup_insert_ne.
Qed.

Lemma dpkg_exists d out f p :
  exists_in f p = true → exists_in (dpkg_deb_b A d out f).1 p = true.
Proof.
  intros H. unfold dpkg_deb_b. destruct (A f d); [done|].
  destruct (is_dir f out); [done|].
  destruct (is_dir f (parent out)); [|done]. simpl.
  unfold exists_in in *. destruct (decide (p = out)) as [->|].
  - by rewrite lookup_insert_eq.
  - by rewrite lookup_insert_ne.
Qed.

Lemma exec_archive f : (exec_all A [archive_cmd tf] f).1 = archived f.
Proof. reflexivity. Qed.

Lemma deb_file_not_staged : ¬ deb `prefix_of` deb_file tf.
Proof. apply sibling_not_staged. Qed.

(** A run that reaches its end has found the release binary, had or made
    [bin], and gone through the five copies and the archiver. *)
Lemma finish_done w :
  (finish tf A w).1 = inl tt →
  exists_in (fs w) bin = true ∧
  stdout (finish tf A w).2 = stdout w ∧
  (trace (finish tf A w).2).*1
    = (trace w).*1 ++ copy_cmds tf ++ [archive_cmd tf] ∧
  ∃ f3,
    fs (finish tf A w).2 = archived (copied f3) ∧
    (f3 = fs w ∧ exists_in (fs w) (deb_bin tf) = true
     ∨ f3 = <[deb_bin tf := Dir]> (fs w) ∧ fs w !! deb_bin tf = None
       ∧ fs w !! deb = Some Dir).
Proof.
  destruct (exists_in (fs w) bin) eqn:Eb.
  2:{ by rewrite finish_missing. }
  rewrite finish_present by done.
  destruct (exists_in (fs w) (deb_bin tf)) eqn:Ed.
  - intros _. rewrite exec_all_app. cbn [fst snd fs stdin stdout trace].
    rewrite !fmap_app, !exec_all_cmds, exec_archive.
    repeat split; try done. exists (fs w). split; [done|]. by left.
  - unfold mkdir. apply exists_in_false in Ed. rewrite Ed, parent_deb_bin.
    destruct (fs w !! deb) as [[|b]|] eqn:Edeb; try done.
    intros _. rewrite exec_all_app. cbn [fst snd fs stdin stdout trace].
    rewrite !fmap_app, !exec_all_cmds, exec_archive.
    repeat split; try done.
    exists (<[deb_bin tf := Dir]> (fs w)). split; [done|]. by right.
Qed.

(** Whatever happens, nothing outside the staging directory changes,
    the archive apart. *)
Lemma finish_other w p :
  ¬ deb `prefix_of` p → p ≠ deb_file tf →
  fs (finish tf A w).2 !! p = fs w !! p.
Proof.
  intros Hp Ho.
  assert (Hb : p ≠ deb_bin tf)
    by (apply (unstaged_neq _ _ _ Hp), deb_bin_staged).
  destruct (exists_in (fs w) bin) eqn:Eb.
  2:{ by rewrite finish_missing. }
  rewrite finish_present by done.
  destruct (exists_in (fs w) (deb_bin tf)) eqn:Ed.
  - rewrite exec_all_app. cbn [fst snd fs stdin stdout trace].
    rewrite exec_archive.
    rewrite dpkg_other by done. by apply (copied_other tf A).
  - destruct (mkdir (deb_bin tf) (fs w)) as [e|f3] eqn:Em; [done|].
    rewrite exec_all_app. cbn [fst snd fs stdin stdout trace].
    rewrite exec_archive.
    rewrite dpkg_other by done. rewrite (copied_other tf A) by done.
    unfold mkdir in Em. repeat case_match; simplify_eq.
    by rewrite lookup_insert_ne.
Qed.

(** No entry is ever removed by the rest of the run. *)
Lemma finish_exists w p :
  exists_in (fs w) p = true → exists_in (fs (finish tf A w).2) p = true.
Proof.
  intros He.
  destruct (exists_in (fs w) bin) eqn:Eb.
  2:{ by rewrite finish_missing. }
  rewrite finish_present by done.
  destruct (exists_in (fs w) (deb_bin tf)) eqn:Ed.
  - rewrite exec_all_app. cbn [fst snd fs stdin stdout trace].
    rewrite exec_archive.
    by apply dpkg_exists, (copied_exists tf A).
  - destruct (mkdir (deb_bin tf) (fs w)) as [e|f3] eqn:Em; [done|].
    rewrite exec_all_app. cbn [fst snd fs stdin stdout trace].
    rewrite exec_archive.
    apply dpkg_exists, (copied_exists tf A).
    unfold mkdir in Em. repeat case_match; simplify_eq.
    unfold exists_in in *. destruct (decide (p = deb_bin tf)) as [->|].
    + by rewrite lookup_insert_eq.
    + by rewrite lookup_insert_ne.
Qed.

(** The rest of the run only adds to the commands issued. *)
Lemma finish_trace w :
  ∃ t, trace (finish tf A w).2 = trace w ++ t ∧
       (t = [] ∨ t.*1 = copy_cmds tf ++ [archive_cmd tf]).
Proof.
  destruct (exists_in (fs w) bin) eqn:Eb.
  2:{ rewrite finish_missing by done. exists []. simpl.
      rewrite app_nil_r. auto. }
  rewrite finish_present by done.
  destruct (if exists_in (fs w) (deb_bin tf) then _ else _) as [e|f3].
  - exists []. rewrite app_nil_r. auto.
  - eexists. split; [done|]. right.
    rewrite exec_all_app. cbn [fst snd]. by rewrite fmap_app, !exec_all_cmds.
Qed.

End Finishing.

(** ** Statements about whole runs *)

Lemma wf_fsb_sound f : wf_fsb f = true → wf_fs f.
Proof.
  unfold wf_fsb, wf_fs. intros H. apply andb_prop in H as [H1 H2].
  split; [done|]. intros p n Hp.
  rewrite forallb_forall in H2.
  apply (H2 (p, n)). apply list_elem_of_In. by apply elem_of_map_to_list.
Qed.

Lemma run_eq tf A f inp :
  run tf A f inp =
    match clear_or_create tf A (mkWorld f inp [banner tf] []) with
    | (inl _, w2) => finish tf A w2
    | (inr s, w2) => (inr s, w2)
    end.
Proof. reflexivity. Qed.

(** C3. The exit status of the archiver is never inspected: whatever the
    archiver does, succeed or fail, the run ends in the same way, has
    printed the same lines and has issued the same commands; a failure of
    the archiver is reported nowhere. *)
Theorem archiver_status_never_inspected tf A1 A2 f inp :
  (run tf A1 f inp).1 = (run tf A2 f inp).1 ∧
  exit_status (run tf A1 f inp).1 = exit_status (run tf A2 f inp).1 ∧
  stdout (run tf A1 f inp).2 = stdout (run tf A2 f inp).2 ∧
  (trace (run tf A1 f inp).2).*1 = (trace (run tf A2 f inp).2).*1.
Proof.
  rewrite !run_eq.
  change (clear_or_create tf A2) with (clear_or_create tf A1).
  destruct (clear_or_create tf A1 _) as [[[]|s] w2]; [|done].
  destruct (exists_in (fs w2) (otter_bin_path tf)) eqn:Eb.
  2:{ by rewrite !finish_missing. }
  rewrite !finish_present by done.
  destruct (if exists_in (fs w2) (deb_bin tf) then _ else _) as [e|f3];
    [done|].
  cbn [fst snd fs stdin stdout trace].
  by rewrite !fmap_app, !exec_all_cmds.
Qed.

Lemma no_rm_in_population tf (t : list (command * Z)) p :
  t = [] ∨ t.*1 = copy_cmds tf ++ [archive_cmd tf] →
  ∀ c st, (c, st) ∈ t → c ≠ Rm_r p.
Proof.
  intros [-> | Ht] c st Hc.
  - by apply elem_of_nil in Hc.
  - intros ->. apply (list_elem_of_fmap_2 fst) in Hc. rewrite Ht in Hc.
    unfold copy_cmds, archive_cmd in Hc. simpl in Hc.
    repeat (apply elem_of_cons in Hc as [Hc | Hc]; [discriminate Hc|]).
    by apply elem_of_nil in Hc.
Qed.







Lemma cc_created tf A f i o t :
  (exists_in f (otter_deb_path tf) = false
   ∨ ∃ r i', i = r :: i' ∧ affirmative r = true) →
  (clear_or_create tf A (mkWorld f i o t)).1 = inl tt →
  fs (clear_or_create tf A (mkWorld f i o t)).2 !! otter_deb_path tf
  = Some Dir.
Proof.
  intros Hc.
  cc_cases tf f i He Hr; repeat case_match; simpl; try done; intros _;
    try apply lookup_insert_eq.
  destruct Hc as [? | (r' & i' & ? & ?)]; [done|]. simplify_eq. congruence.
Qed.

(** C8. The run is not transactional: when the staging directory was
    created, or cleared and created again, and the release binary is then
    found missing, the filesystem the run leaves is the one the
    clear-or-create step produced, with the staging directory in it;
    nothing is rolled back. *)
Theorem staging_persists_when_binary_missing tf A f inp :
  (exists_in f (otter_deb_path tf) = false
   ∨ ∃ r i, inp = r :: i ∧ affirmative r = true) →
  (run tf A f inp).1 = inr (Exit None) →
  exists_in f (otter_bin_path tf) = false ∧
  fs (run tf A f inp).2
  = fs (clear_or_create tf A (mkWorld f inp [banner tf] [])).2 ∧
  fs (run tf A f inp).2 !! otter_deb_path tf = Some Dir.
Proof.
  intros Hc. rewrite run_eq.
  pose proof (cc_created tf A f inp [banner tf] [] Hc) as Hd.
  pose proof (cc_other tf A f inp [banner tf] [] (otter_bin_path tf)
                (bin_not_staged tf)
                (not_eq_sym (parent_deb_neq_bin tf))) as Hb.
  pose proof (cc_result tf A f inp [banner tf] []) as Hres.
  destruct (clear_or_create tf A _) as [[[]|s] w2]; simpl in *.
  2:{ intros E. destruct Hres as [? | [e ?]]; simplify_eq. }
  destruct (exists_in (fs w2) (otter_bin_path tf)) eqn:Eb.
  - rewrite finish_present by done.
    destruct (if exists_in (fs w2) (deb_bin tf) then _ else _); done.
  - rewrite finish_missing by done. simpl. intros _.
    split; [|split; [done | by apply Hd]].
    unfold exists_in in *. by rewrite <- Hb.
Qed.

Lemma staging_persists_when_binary_missing_witness :
  fs (run tool sample_archiver unbuilt_tree []).2 !! otter_deb_path tool
  = Some Dir.
Proof.
  assert (H1 : exists_in unbuilt_tree (otter_deb_path tool) = false
               ∨ ∃ r i, [] = r :: i ∧ affirmative r = true)
    by (left; vm_compute; reflexivity).
  assert (H2 : (run tool sample_archiver unbuilt_tree []).1
               = inr (Exit None))
    by (vm_compute; reflexivity).
  exact (proj2 (proj2 (staging_persists_when_binary_missing
                         tool sample_archiver unbuilt_tree [] H1 H2))).
Defined.

(** C9. With a staging directory in place, the removal command is issued
    exactly when the answer is ["y"] or ["Y"]; after any other answer,
    ["yes"], an answer with blanks around it or the empty line included,
    no removal is issued and every entry of the tree is still there when
    the run ends. *)
Theorem only_y_clears tf A f r inp :
  exists_in f (otter_deb_path tf) = true →
  ((Rm_r (otter_deb_path tf), 0) ∈ trace (run tf A f (r :: inp)).2
   ↔ r = "y" ∨ r = "Y") ∧
  (r ≠ "y" → r ≠ "Y" →
   (∀ c st, (c, st) ∈ trace (run tf A f (r :: inp)).2 →
            c ≠ Rm_r (otter_deb_path tf)) ∧
   ∀ p, exists_in f p = true →
        exists_in (fs (run tf A f (r :: inp)).2) p = true) ∧
  affirmative "yes" = false ∧ affirmative " y" = false ∧
  affirmative "y " = false ∧ affirmative EmptyString = false.
Proof.
  intros He.
  assert (Hno : affirmative r = false →
    (∀ c st, (c, st) ∈ trace (run tf A f (r :: inp)).2 →
             c ≠ Rm_r (otter_deb_path tf)) ∧
    ∀ p, exists_in f p = true →
         exists_in (fs (run tf A f (r :: inp)).2) p = true).
  { intros Hr. rewrite run_eq, clear_or_create_declined by done. split.
    - destruct (finish_trace tf A
                  (mkWorld f inp ([banner tf] ++ [clear_prompt]) []))
        as (t & -> & Ht).
      simpl. exact (no_rm_in_population tf t _ Ht).
    - intros p Hp. by apply finish_exists. }
  split; [|split; [|done]].
  - rewrite <- affirmative_iff. destruct (affirmative r) eqn:Hr.
    + split; [done|]. intros _.
      rewrite run_eq, clear_or_create_accepted by done.
      pose proof (cc_trace tf A (rm_r (otter_deb_path tf) f).1 inp
                    ([banner tf] ++ [clear_prompt])
                    ([] ++ [(Rm_r (otter_deb_path tf), 0)])) as Htr.
      destruct (clear_or_create tf A _) as [[[]|s] w2]; simpl in *.
      * destruct (finish_trace tf A w2) as (t & -> & _).
        apply elem_of_app. left.
        destruct Htr as [-> | ->]; simpl; apply elem_of_cons; by left.
      * destruct Htr as [-> | ->]; simpl; apply elem_of_cons; by left.
    + split; [|done]. intros Hin.
      destruct (Hno eq_refl) as [Hn _]. by destruct (Hn _ _ Hin).
  - intros H1 H2. apply Hno.
    destruct (affirmative r) eqn:Hr; [|done].
    apply affirmative_iff in Hr as [? | ?]; done.
Qed.

Lemma only_y_clears_witness :
  (Rm_r (otter_deb_path tool), 0)
    ∈ trace (run tool sample_archiver stale_tree ["Y"]).2.
Proof.
  assert (H : exists_in stale_tree (otter_deb_path tool) = true)
    by (vm_compute; reflexivity).
  apply (proj1 (only_y_clears tool sample_archiver stale_tree "Y" [] H)).
  by right.
Defined.

Lemma subtree_lookup (d : path) (f : FS) (p : path) :
  subtree d f !! p = if decide (d `prefix_of` p) then f !! p else None.
Proof.
  unfold subtree. case_decide as Hd.
  - destruct (f !! p) as [n|] eqn:E.
    + apply map_lookup_filter_Some. by split.
    + apply map_lookup_filter_None. by left.
  - apply map_lookup_filter_None. right. intros x _ H. by apply Hd.
Qed.

Lemma subtree_rm (d : path) (f : FS) : exists_in f d = true → subtree d (rm_r d f).1 = ∅.
Proof.
  intros He. apply map_eq. intros p.
  rewrite subtree_lookup, lookup_empty. case_decide; [|done].
  by apply rm_r_under.
Qed.

(** A tree in which nothing lies below [d] and [d] is then made a
    directory holds just that directory at and below [d]. *)
Lemma subtree_created (d : path) (g : FS) :
  subtree d g = ∅ → subtree d (<[d := Dir]> g) = {[d := Dir]}.
Proof.
  intros Hg. apply map_eq. intros p. rewrite subtree_lookup.
  destruct (decide (p = d)) as [->|Hne].
  - rewrite decide_True by done.
    by rewrite lookup_insert_eq, lookup_singleton_eq.
  - rewrite lookup_singleton_ne, lookup_insert_ne by done.
    case_decide as Hd; [|done].
    apply (f_equal (λ m, m !! p)) in Hg.
    rewrite subtree_lookup, lookup_empty in Hg. by rewrite decide_True in Hg.
Qed.

(** C5. When the staging directory exists and the answer is affirmative,
    the clear-or-create step removes it with everything below it and
    creates it again (its parent is there already), so that the rest of
    the run, the check for the release binary and the population, starts
    from a tree whose staging directory is empty. *)
Theorem accepted_clear_recreates_empty tf A f r inp :
  wf_fs f →
  exists_in f (otter_deb_path tf) = true →
  affirmative r = true →
  let cleared := (rm_r (otter_deb_path tf) f).1 in
  let created := <[otter_deb_path tf := Dir]> cleared in
  let w2 := mkWorld created inp [banner tf; clear_prompt]
                    [(Rm_r (otter_deb_path tf), 0)] in
  clear_or_create tf A (mkWorld f (r :: inp) [banner tf] []) = (inl tt, w2) ∧
  subtree (otter_deb_path tf) cleared = ∅ ∧
  subtree (otter_deb_path tf) created = {[otter_deb_path tf := Dir]} ∧
  is_dir created (parent (otter_deb_path tf)) = true ∧
  run tf A f (r :: inp) = finish tf A w2.
Proof.
  intros Hwf He Hr cleared created w2.
  assert (Hp : cleared !! (pkg_dir tf // "otterlang") = Some Dir).
  { unfold cleared. rewrite rm_r_other by apply sibling_not_staged.
    apply exists_in_true in He as [n Hn].
    rewrite <- (parent_deb tf). by apply (wf_parent _ _ n). }
  assert (Hcc : clear_or_create tf A (mkWorld f (r :: inp) [banner tf] [])
                = (inl tt, w2)).
  { rewrite clear_or_create_accepted by done.
    rewrite clear_or_create_absent
      by (apply exists_in_false; by apply rm_r_under).
    fold cleared. by rewrite Hp. }
  split; [done|]. split; [by apply subtree_rm|].
  split; [by apply subtree_created, subtree_rm|]. split.
  - apply is_dir_true. unfold created. rewrite parent_deb.
    rewrite lookup_insert_ne by apply deb_neq_parent. done.
  - by rewrite run_eq, Hcc.
Qed.

Lemma accepted_clear_recreates_empty_witness :
  subtree (otter_deb_path tool)
          (fs (clear_or_create tool sample_archiver
                 (mkWorld stale_tree ["y"] [banner tool] [])).2)
  = {[otter_deb_path tool := Dir]}.
Proof.
  assert (H1 : wf_fs stale_tree)
    by (apply wf_fsb_sound; vm_compute; reflexivity).
  assert (H2 : exists_in stale_tree (otter_deb_path tool) = true)
    by (vm_compute; reflexivity).
  assert (H3 : affirmative "y" = true) by reflexivity.
  destruct (accepted_clear_recreates_empty tool sample_archiver stale_tree
              "y" [] H1 H2 H3) as (E & _ & Hs & _).
  rewrite E. exact Hs.
Defined.

Section StagingFacts.

Variable tf : path.
Variable A : Archiver.

Abbreviation pkg := (pkg_dir tf).
Abbreviation deb := (otter_deb_path tf).
Abbreviation bin := (otter_bin_path tf).
Abbreviation pdeb := (pkg_dir tf // "otterlang").
Abbreviation cc f i o t := (clear_or_create tf A (mkWorld f i o t)).
Abbreviation copied f := (exec_all A (copy_cmds tf) f).1.
Abbreviation archived f := (dpkg_deb_b A (parent deb) (deb_file tf) f).1.

Lemma rm_r_lookup_cases (p : path) (f : FS) (q : path) :
  (rm_r p f).1 !! q = None ∨ (rm_r p f).1 !! q = f !! q.
Proof.
  destruct (decide (p `prefix_of` q)) as [Hp|Hp].
  - destruct (exists_in f p) eqn:He.
    + left. by apply rm_r_under.
    + right. unfold rm_r. by rewrite He.
  - right. by apply rm_r_other.
Qed.

(** The step turns nothing but the staging directory and its parent into
    a directory. *)
Lemma cc_not_dir f i o t p :
  p ≠ deb → p ≠ pdeb → is_dir f p = false →
  is_dir (fs (cc f i o t).2) p = false.
Proof.
  intros Hd Hq Hn.
  assert (Hrm : is_dir (rm_r deb f).1 p = false).
  { unfold is_dir in *.
    by destruct (rm_r_lookup_cases deb f p) as [-> | ->]. }
  cc_cases tf f i He Hr; repeat case_match; simpl;
    unfold is_dir in *; rewrite ?lookup_insert_ne by done; done.
Qed.

(** In a well-formed tree the step ends normally as soon as the prompt,
    if there is one, is answered, [otterlang] is no regular file and the
    package directory is there. *)
Lemma cc_completes f i o t :
  wf_fs f →
  (exists_in f deb = true → i ≠ []) →
  is_file f pdeb = false → is_dir f pkg = true →
  (cc f i o t).1 = inl tt.
Proof.
  intros Hwf Hi Hf Hk. apply is_dir_true in Hk. unfold is_file in Hf.
  assert (Hrm : exists_in f deb = true →
                (rm_r deb f).1 !! pdeb = Some Dir).
  { intros He. rewrite rm_r_other by apply sibling_not_staged.
    apply exists_in_true in He as [n Hn].
    rewrite <- (parent_deb tf). by apply (wf_parent _ _ n). }
  assert (Hk' : (rm_r deb f).1 !! pkg = f !! pkg)
    by apply rm_r_other, pkg_not_staged.
  cc_cases tf f i He Hr; [by destruct Hi | | done |].
  - by rewrite Hrm.
  - rewrite Hk. by destruct (f !! pdeb) as [[|b]|].
Qed.

(** After the step, in a well-formed tree, a [bin] entry sits in a
    staging directory. *)
Lemma cc_staging_dir f i o t :
  wf_fs f → (cc f i o t).1 = inl tt →
  exists_in (fs (cc f i o t).2) (deb_bin tf) = true →
  fs (cc f i o t).2 !! deb = Some Dir.
Proof.
  intros Hwf.
  cc_cases tf f i He Hr; repeat case_match; simpl; try done; intros _ Hb;
    try apply lookup_insert_eq.
  apply exists_in_true in Hb as [n Hn]. rewrite <- (parent_deb_bin tf).
  by apply (wf_parent _ _ n).
Qed.

Lemma metadata_not_otterlang n : n ∈ metadata_names → pkg // n ≠ pdeb.
Proof.
  intros Hn E. apply child_inj in E as [_ ->]. unfold metadata_names in Hn.
  repeat (apply elem_of_cons in Hn as [Hn | Hn]; [discriminate Hn|]).
  by apply elem_of_nil in Hn.
Qed.

Lemma metadata_not_bin n : n ∈ metadata_names → deb // n ≠ deb_bin tf.
Proof.
  intros Hn E. apply child_inj in E as [_ ->]. unfold metadata_names in Hn.
  repeat (apply elem_of_cons in Hn as [Hn | Hn]; [discriminate Hn|]).
  by apply elem_of_nil in Hn.
Qed.

(** The state of one metadata file when a run has reached its end. *)
Lemma finish_metadata w n b :
  (finish tf A w).1 = inl tt →
  (exists_in (fs w) (deb_bin tf) = true → fs w !! deb = Some Dir) →
  n ∈ metadata_names →
  fs w !! (pkg // n) = Some (File b) → is_dir (fs w) (deb // n) = false →
  fs (finish tf A w).2 !! (deb // n) = Some (File b).
Proof.
  intros Hok Hdir Hn Hs Ht.
  destruct (finish_done tf A w Hok) as (_ & _ & _ & f3 & -> & Hf3).
  rewrite dpkg_other by apply staged_neq_source.
  pose proof (metadata_not_bin n Hn) as Hnb.
  assert (Hdb : deb_bin tf ≠ pkg // n) by apply staged_neq_source.
  assert (Hdd : deb_bin tf ≠ deb) by path_neq.
  apply (copied_metadata tf A); try done;
    destruct Hf3 as [[-> He] | (-> & Hnone & Hdeb)];
    unfold is_dir in *; rewrite ?lookup_insert_ne by done; try done.
  - by rewrite (Hdir He).
  - by rewrite Hdeb.
Qed.

End StagingFacts.

(** C7. In a run that reaches its end, each metadata file that is a
    regular file beside the tool, and whose name in the staging directory
    is not taken by a directory, is in the staging directory with exactly
    the bytes of its source, whatever was there under that name before.
    The run issues copies, the archiver and possibly the removal, and
    nothing else: nothing compares contents. *)
Theorem metadata_copied_verbatim tf A f inp n b :
  wf_fs f →
  (run tf A f inp).1 = inl tt →
  n ∈ metadata_names →
  f !! (pkg_dir tf // n) = Some (File b) →
  is_dir f (otter_deb_path tf // n) = false →
  fs (run tf A f inp).2 !! (otter_deb_path tf // n) = Some (File b) ∧
  ∀ c, c ∈ (trace (run tf A f inp).2).*1 →
       c = Rm_r (otter_deb_path tf) ∨ c ∈ copy_cmds tf ∨ c = archive_cmd tf.
Proof.
  intros Hwf Hok Hn Hs Ht. revert Hok. rewrite run_eq.
  pose proof (cc_staging_dir tf A f inp [banner tf] [] Hwf) as Hdir.
  pose proof (cc_other tf A f inp [banner tf] [] (pkg_dir tf // n)
                (sibling_not_staged tf n) (metadata_not_otterlang tf n Hn))
    as Hsrc.
  assert (Hdst : is_dir (fs (clear_or_create tf A
                   (mkWorld f inp [banner tf] [])).2)
                   (otter_deb_path tf // n) = false).
  { apply cc_not_dir; [path_neq | path_neq | done]. }
  pose proof (cc_trace tf A f inp [banner tf] []) as Htr.
  destruct (clear_or_create tf A _) as [[[]|s] w2]; [|done].
  simpl in *. intros Hok. split.
  - apply finish_metadata; try done; [by apply Hdir | by rewrite Hsrc].
  - destruct (finish_done tf A w2 Hok) as (_ & _ & -> & _).
    intros c Hc. apply elem_of_app in Hc as [Hc | Hc].
    + left. destruct Htr as [Ht' | Ht']; rewrite Ht' in Hc; simpl in Hc.
      * by apply elem_of_nil in Hc.
      * by apply list_elem_of_singleton in Hc.
    + right. apply elem_of_app in Hc as [Hc | Hc]; [by left|].
      right. by apply list_elem_of_singleton in Hc.
Qed.

Lemma metadata_copied_verbatim_witness :
  fs (run tool sample_archiver stale_tree ["n"]).2
    !! (otter_deb_path tool // "control")
  = Some (File [x50; x6b; x67]).
Proof.
  assert (H1 : wf_fs stale_tree)
    by (apply wf_fsb_sound; vm_compute; reflexivity).
  assert (H2 : (run tool sample_archiver stale_tree ["n"]).1 = inl tt)
    by (vm_compute; reflexivity).
  assert (H3 : "control" ∈ metadata_names) by (apply elem_of_cons; by left).
  assert (H4 : stale_tree !! (pkg_dir tool // "control")
               = Some (File [x50; x6b; x67]))
    by (vm_compute; reflexivity).
  assert (H5 : is_dir stale_tree (otter_deb_path tool // "control") = false)
    by (vm_compute; reflexivity).
  exact (proj1 (metadata_copied_verbatim tool sample_archiver stale_tree
                  ["n"] "control" _ H1 H2 H3 H4 H5)).
Defined.

Section Completion.

Variable tf : path.
Variable A : Archiver.

Abbreviation pkg := (pkg_dir tf).
Abbreviation deb := (otter_deb_path tf).
Abbreviation bin := (otter_bin_path tf).
Abbreviation pdeb := (pkg_dir tf // "otterlang").
Abbreviation copied f := (exec_all A (copy_cmds tf) f).1.
Abbreviation archived f := (dpkg_deb_b A (parent deb) (deb_file tf) f).1.

(** With the release binary and the staging directory in place the rest
    of the run goes through. *)
Lemma finish_completes w :
  exists_in (fs w) bin = true → fs w !! deb = Some Dir →
  (finish tf A w).1 = inl tt.
Proof.
  intros Hb Hd. rewrite finish_present by done.
  destruct (exists_in (fs w) (deb_bin tf)) eqn:Ed; [done|].
  apply exists_in_false in Ed. unfold mkdir.
  by rewrite Ed, parent_deb_bin, Hd.
Qed.

(** The rest of the run neither removes a directory nor makes a regular
    file a directory. *)
Lemma finish_dir_stays w p :
  is_dir (fs w) p = true → is_dir (fs (finish tf A w).2) p = true.
Proof.
  intros Hp.
  destruct (exists_in (fs w) bin) eqn:Eb.
  2:{ by rewrite finish_missing. }
  rewrite finish_present by done.
  destruct (exists_in (fs w) (deb_bin tf)) eqn:Ed.
  - rewrite exec_all_app. cbn [fst snd fs]. rewrite exec_archive.
    by rewrite dpkg_is_dir, copied_is_dir.
  - destruct (mkdir (deb_bin tf) (fs w)) as [e|f3] eqn:Em; [done|].
    rewrite exec_all_app. cbn [fst snd fs]. rewrite exec_archive.
    rewrite dpkg_is_dir, copied_is_dir.
    unfold mkdir in Em. repeat case_match; simplify_eq.
    unfold is_dir in *. destruct (decide (p = deb_bin tf)) as [->|].
    + by rewrite lookup_insert_eq.
    + by rewrite lookup_insert_ne.
Qed.

(** The release binary when a run has reached its end. *)
Lemma finish_binary w b :
  (finish tf A w).1 = inl tt →
  fs w !! bin = Some (File b) → is_file (fs w) (deb_bin tf) = false →
  is_dir (fs w) (deb_bin tf // "otter") = false →
  fs (finish tf A w).2 !! (deb_bin tf // "otter") = Some (File b).
Proof.
  intros Hok Hs Hnf Ht.
  destruct (finish_done tf A w Hok) as (_ & _ & _ & f3 & -> & Hf3).
  rewrite dpkg_other by path_neq.
  assert (Hdb : deb_bin tf ≠ bin) by path_neq.
  assert (Hdd : deb_bin tf ≠ deb_bin tf // "otter") by path_neq.
  apply (copied_binary tf A);
    destruct Hf3 as [[-> He] | (-> & Hnone & Hdeb)];
    unfold is_dir, is_file, exists_in in *;
    rewrite ?lookup_insert_ne by done; rewrite ?lookup_insert_eq; try done.
  by destruct (fs w !! deb_bin tf) as [[|c]|].
Qed.


End Completion.

(** When the archiver packs, the archive is written beside the staging
    tree. *)
Lemma finish_archive tf pack w :
  (finish tf (packing pack) w).1 = inl tt →
  is_dir (fs w) (deb_file tf) = false → is_dir (fs w) (pkg_dir tf) = true →
  ∃ g, fs (finish tf (packing pack) w).2 !! deb_file tf
       = Some (File (pack g (parent (otter_deb_path tf)))).
Proof.
  intros Hok Ho Hk.
  destruct (finish_done tf _ w Hok) as (_ & _ & _ & f3 & -> & Hf3).
  eexists. erewrite dpkg_writes; [apply lookup_insert_eq | reflexivity | |].
  - rewrite copied_is_dir.
    destruct Hf3 as [[-> _] | (-> & _ & _)]; [done|].
    unfold is_dir in *. rewrite lookup_insert_ne by path_neq. done.
  - rewrite copied_is_dir, parent_deb_file.
    destruct Hf3 as [[-> _] | (-> & _ & _)]; [done|].
    unfold is_dir in *. rewrite lookup_insert_ne; [done|].
    intros E. apply (pkg_not_staged tf). rewrite <- E. apply deb_bin_staged.
Qed.

Lemma is_file_true f p : is_file f p = true → ∃ b, f !! p = Some (File b).
Proof. unfold is_file. destruct (f !! p) as [[|b]|]; eauto; done. Qed.

Lemma wf_absent_staged tf f c :
  wf_fs f → exists_in f (otter_deb_path tf) = false →
  f !! (otter_deb_path tf // c) = None.
Proof.
  intros Hwf He. apply wf_absent_child; [done|].
  apply exists_in_false in He. unfold is_dir. by rewrite He.
Qed.

(** C1, as the code has it. From a well-formed tree in which the staging
    directory does not exist, [otterlang] is absent or a directory, the
    release binary and the four metadata files are regular files, no
    directory sits where the archive goes, and with an archiver that packs,
    the run goes through to its end; it leaves the staging directory with
    the binary in [bin/otter] and the four metadata files, each with the
    bytes of its source, and the archive beside the staging tree. *)
Theorem fresh_run_produces_package tf pack f inp bb :
  wf_fs f →
  exists_in f (otter_deb_path tf) = false →
  is_file f (pkg_dir tf // "otterlang") = false →
  f !! otter_bin_path tf = Some (File bb) →
  (∀ n, n ∈ metadata_names → is_file f (pkg_dir tf // n) = true) →
  is_dir f (deb_file tf) = false →
  (run tf (packing pack) f inp).1 = inl tt ∧
  fs (run tf (packing pack) f inp).2 !! otter_deb_path tf = Some Dir ∧
  fs (run tf (packing pack) f inp).2 !! (deb_bin tf // "otter")
  = Some (File bb) ∧
  (∀ n, n ∈ metadata_names →
        is_file (fs (run tf (packing pack) f inp).2)
                (otter_deb_path tf // n) = true ∧
        fs (run tf (packing pack) f inp).2 !! (otter_deb_path tf // n)
        = f !! (pkg_dir tf // n)) ∧
  ∃ g, fs (run tf (packing pack) f inp).2 !! deb_file tf
       = Some (File (pack g (parent (otter_deb_path tf)))).
Proof.
  intros Hwf He Ho Hb Hm Hout.
  assert (Hk : is_dir f (pkg_dir tf) = true).
  { destruct (is_file_true _ _ (Hm "control" ltac:(apply elem_of_cons; by left)))
      as [b Hc].
    apply is_dir_true. rewrite <- (parent_child (pkg_dir tf) "control").
    by apply (wf_parent _ _ _ Hwf Hc). }
  set (A := packing pack). rewrite run_eq.
  assert (Hcc : (clear_or_create tf A (mkWorld f inp [banner tf] [])).1
                = inl tt).
  { apply cc_completes; try done. by rewrite He. }
  pose proof (cc_created tf A f inp [banner tf] [] (or_introl He) Hcc) as Hd.
  pose proof (cc_other tf A f inp [banner tf] [] (otter_bin_path tf)
                (bin_not_staged tf)
                (not_eq_sym (parent_deb_neq_bin tf))) as Hb2.
  assert (Hbin : fs (clear_or_create tf A (mkWorld f inp [banner tf] [])).2
                   !! deb_bin tf = None).
  { apply cc_absent_stays; [path_neq | path_neq |].
    by apply wf_absent_staged. }
  assert (Hott : fs (clear_or_create tf A (mkWorld f inp [banner tf] [])).2
                   !! (deb_bin tf // "otter") = None).
  { apply cc_absent_stays; [path_neq | path_neq |].
    apply wf_absent_child; [done|]. unfold is_dir, deb_bin.
    by rewrite (wf_absent_staged tf f "bin"). }
  assert (Hmeta : ∀ n, n ∈ metadata_names →
    fs (clear_or_create tf A (mkWorld f inp [banner tf] [])).2
      !! (otter_deb_path tf // n) = None ∧
    fs (clear_or_create tf A (mkWorld f inp [banner tf] [])).2
      !! (pkg_dir tf // n) = f !! (pkg_dir tf // n)).
  { intros n Hn. split.
    - apply cc_absent_stays; [path_neq | path_neq |].
      by apply wf_absent_staged.
    - apply cc_other; [apply sibling_not_staged|].
      by apply metadata_not_otterlang. }
  assert (Hout2 : is_dir (fs (clear_or_create tf A
                    (mkWorld f inp [banner tf] [])).2) (deb_file tf) = false).
  { apply cc_not_dir; [path_neq | path_neq | done]. }
  assert (Hk2 : is_dir (fs (clear_or_create tf A
                  (mkWorld f inp [banner tf] [])).2) (pkg_dir tf) = true).
  { unfold is_dir in *. rewrite cc_other; [done | apply pkg_not_staged |].
    apply child_neq_self. }
  destruct (clear_or_create tf A _) as [[[]|s] w2]; [|done].
  simpl in *. rewrite Hb in Hb2.
  assert (Hok : (finish tf A w2).1 = inl tt).
  { apply finish_completes; [|done]. unfold exists_in. by rewrite Hb2. }
  split; [done|]. split.
  { apply is_dir_true, finish_dir_stays. by apply is_dir_true. }
  split.
  { apply finish_binary; try done; unfold is_file, is_dir.
    - by rewrite Hbin.
    - by rewrite Hott. }
  split.
  - intros n Hn. destruct (Hmeta n Hn) as [Hn1 Hn2].
    destruct (is_file_true _ _ (Hm n Hn)) as [b Hs].
    assert (E : fs (finish tf A w2).2 !! (otter_deb_path tf // n)
                = Some (File b)).
    { apply finish_metadata; try done.
      - by rewrite Hn2.
      - unfold is_dir. by rewrite Hn1. }
    unfold is_file. by rewrite E, Hs.
  - by apply finish_archive.
Qed.

Lemma fresh_run_produces_package_witness :
  fs (run tool sample_archiver fresh_tree []).2
    !! (deb_bin tool // "otter")
  = Some (File [x7f; x45; x4c; x46]).
Proof.
  assert (H1 : wf_fs fresh_tree)
    by (apply wf_fsb_sound; vm_compute; reflexivity).
  assert (H2 : exists_in fresh_tree (otter_deb_path tool) = false)
    by (vm_compute; reflexivity).
  assert (H3 : is_file fresh_tree (pkg_dir tool // "otterlang") = false)
    by (vm_compute; reflexivity).
  assert (H4 : fresh_tree !! otter_bin_path tool
               = Some (File [x7f; x45; x4c; x46]))
    by (vm_compute; reflexivity).
  assert (H5 : ∀ n, n ∈ metadata_names →
                    is_file fresh_tree (pkg_dir tool // n) = true).
  { intros n Hn. unfold metadata_names in Hn.
    repeat (apply elem_of_cons in Hn as [-> | Hn];
            [vm_compute; reflexivity|]).
    by apply elem_of_nil in Hn. }
  assert (H6 : is_dir fresh_tree (deb_file tool) = false)
    by (vm_compute; reflexivity).
  exact (proj1 (proj2 (proj2
    (fresh_run_produces_package tool (λ _ _, [x21; x3c; x61; x72; x63; x68; x3e])
       fresh_tree [] _ H1 H2 H3 H4 H5 H6)))).
Defined.

(** C1 as stated fails: in a checkout that has the release binary and no
    staging directory, but lacks [rules], and on a machine where the
    archiver fails, the run goes through to its end with neither [rules] in
    the staging directory nor an archive written. *)
Lemma fresh_run_counterexample :
  wf_fs tree_without_rules ∧
  exists_in tree_without_rules (otter_deb_path tool) = false ∧
  exists_in tree_without_rules (otter_bin_path tool) = true ∧
  (run tool failing_archiver tree_without_rules []).1 = inl tt ∧
  exists_in (fs (run tool failing_archiver tree_without_rules []).2)
            (otter_deb_path tool // "rules") = false ∧
  exists_in (fs (run tool failing_archiver tree_without_rules []).2)
            (deb_file tool) = false.
Proof.
  split; [apply wf_fsb_sound; vm_compute; reflexivity|].
  repeat split; vm_compute; reflexivity.
Qed.




(** ** Running twice *)

(** [cp] is local: on two trees that agree on what it reads, it acts
    alike wherever they agree. *)
Lemma cp_agree (src dst : path) (f g : FS) (p : path) :
  f !! src = g !! src → f !! dst = g !! dst →
  f !! (dst // basename src) = g !! (dst // basename src) →
  is_dir f (parent dst) = is_dir g (parent dst) →
  f !! p = g !! p →
  (cp src dst f).1 !! p = (cp src dst g).1 !! p.
Proof.
  intros Hs Hd Ht Hpd Hp. unfold cp. rewrite <- Hs, <- Hd, <- Ht, <- Hpd.
  destruct (f !! src) as [[|b]|]; try done.
  destruct (f !! dst) as [[|c]|].
  - destruct (f !! (dst // basename src)) as [[|c]|]; try done;
      case_decide; simpl; try done; rewrite !lookup_insert;
      by case_decide.
  - case_decide; simpl; try done. rewrite !lookup_insert. by case_decide.
  - destruct (is_dir f (parent dst)); simpl; try done.
    rewrite !lookup_insert. by case_decide.
Qed.

Lemma wf_absent_under (f : FS) (d p : path) :
  wf_fs f → f !! d = None → d `prefix_of` p → f !! p = None.
Proof.
  intros Hwf Hd [k ->]. induction k as [|x k IH] using rev_ind.
  - by rewrite app_nil_r.
  - destruct (f !! (d ++ k ++ [x])) as [n|] eqn:E; [|done].
    apply (wf_parent _ _ _ Hwf) in E.
    rewrite (assoc_L (++)) in E. fold (child (d ++ k) x) in E.
    rewrite parent_child in E. congruence.
Qed.

Section Twice.

Variable tf : path.

Abbreviation pkg := (pkg_dir tf).
Abbreviation deb := (otter_deb_path tf).
Abbreviation bin := (otter_bin_path tf).
Abbreviation pdeb := (pkg_dir tf // "otterlang").

Lemma same_inputs_cp (src dst : path) (f g : FS) :
  same_inputs tf f g →
  src = bin ∨ (∃ n, n ∈ metadata_names ∧ src = pkg // n) →
  dst = deb ∨ dst = deb_bin tf →
  same_inputs tf (cp src dst f).1 (cp src dst g).1.
Proof.
  intros (Hst & Hb & Hm & Ho) Hsrc Hdst.
  assert (Hs : f !! src = g !! src).
  { destruct Hsrc as [-> | (n & Hn & ->)]; [done | by apply Hm]. }
  assert (Hd : f !! dst = g !! dst).
  { apply Hst. destruct Hdst as [-> | ->];
      [apply deb_prefix_self | apply deb_bin_staged]. }
  assert (Ht : f !! (dst // basename src) = g !! (dst // basename src)).
  { apply Hst, deb_prefix_child. destruct Hdst as [-> | ->];
      [apply deb_prefix_self | apply deb_bin_staged]. }
  assert (Hp : is_dir f (parent dst) = is_dir g (parent dst)).
  { destruct Hdst as [-> | ->].
    - by rewrite parent_deb.
    - rewrite parent_deb_bin. unfold is_dir.
      by rewrite (Hst deb (deb_prefix_self tf)). }
  repeat split.
  - intros p Hpre. apply cp_agree; try done. by apply Hst.
  - by apply cp_agree.
  - intros n Hn. apply cp_agree; try done. by apply Hm.
  - by rewrite !cp_is_dir.
Qed.

Lemma same_inputs_copied A1 A2 f g :
  same_inputs tf f g →
  same_inputs tf (exec_all A1 (copy_cmds tf) f).1
                 (exec_all A2 (copy_cmds tf) g).1.
Proof.
  intros H. simpl.
  do 4 (apply same_inputs_cp;
        [| right; eexists; split; [|reflexivity];
           apply list_elem_of_In; simpl; tauto
         | by left]).
  apply same_inputs_cp; [done | by left | by right].
Qed.

Lemma same_inputs_mkdir_bin f g :
  same_inputs tf f g →
  same_inputs tf (<[deb_bin tf := Dir]> f) (<[deb_bin tf := Dir]> g).
Proof.
  intros (Hst & Hb & Hm & Ho). repeat split.
  - intros p Hp. rewrite !lookup_insert. case_decide; [done | by apply Hst].
  - rewrite !lookup_insert_ne by path_neq. done.
  - intros n Hn. rewrite !lookup_insert_ne by apply staged_neq_source.
    by apply Hm.
  - unfold is_dir. rewrite !lookup_insert_ne by path_neq. apply Ho.
Qed.

(** From trees that look the same to it, the rest of the run ends the
    same way and leaves the same staging directory, whatever the
    archivers. *)
Lemma finish_same_inputs A1 A2 w1 w2 :
  same_inputs tf (fs w1) (fs w2) →
  (finish tf A1 w1).1 = (finish tf A2 w2).1 ∧
  ∀ p, deb `prefix_of` p →
       fs (finish tf A1 w1).2 !! p = fs (finish tf A2 w2).2 !! p.
Proof.
  intros H. pose proof H as (Hst & Hb & Hm & Ho).
  assert (Eb : exists_in (fs w1) bin = exists_in (fs w2) bin)
    by (unfold exists_in; by rewrite Hb).
  destruct (exists_in (fs w2) bin) eqn:Eb2.
  2:{ rewrite !finish_missing by done. simpl. split; [done|]. apply Hst. }
  rewrite !finish_present by done.
  assert (Ed : fs w1 !! deb_bin tf = fs w2 !! deb_bin tf)
    by apply Hst, deb_bin_staged.
  assert (Edd : fs w1 !! deb = fs w2 !! deb)
    by apply Hst, deb_prefix_self.
  unfold exists_in, mkdir. rewrite parent_deb_bin, <- Ed, <- Edd.
  assert (Hout : ∀ f g, same_inputs tf f g → ∀ p, deb `prefix_of` p →
    (exec_all A1 (copy_cmds tf ++ [archive_cmd tf]) f).1 !! p
    = (exec_all A2 (copy_cmds tf ++ [archive_cmd tf]) g).1 !! p).
  { intros f g Hfg p Hp. rewrite !exec_all_app. cbn [fst snd].
    rewrite !exec_archive.
    rewrite !dpkg_other
      by (apply not_eq_sym, (unstaged_neq tf _ _ (deb_file_not_staged tf) Hp)).
    by apply (same_inputs_copied A1 A2 f g Hfg). }
  destruct (fs w1 !! deb_bin tf) as [n|].
  - split; [done|]. cbn [fst snd fs]. by apply Hout.
  - destruct (fs w1 !! deb) as [[|b]|]; try (split; [done | apply Hst]).
    split; [done|]. cbn [fst snd fs]. by apply Hout, same_inputs_mkdir_bin.
Qed.

End Twice.

Section Idempotence.

Variable tf : path.
Variable A : Archiver.

Abbreviation pkg := (pkg_dir tf).
Abbreviation deb := (otter_deb_path tf).
Abbreviation bin := (otter_bin_path tf).
Abbreviation pdeb := (pkg_dir tf // "otterlang").
Abbreviation cc f i o t := (clear_or_create tf A (mkWorld f i o t)).

(** Without a staging directory the step does not depend on what waits
    on standard input. *)
Lemma cc_absent_indep f i o t i' o' t' :
  exists_in f deb = false →
  (cc f i o t).1 = (cc f i' o' t').1 ∧
  fs (cc f i o t).2 = fs (cc f i' o' t').2.
Proof.
  intros He. rewrite !clear_or_create_absent by done.
  by repeat case_match.
Qed.

Lemma cc_accepted_ok f r i o t :
  exists_in f deb = true → is_dir f pdeb = true → affirmative r = true →
  cc f (r :: i) o t =
    (inl tt, mkWorld (<[deb := Dir]> (rm_r deb f).1) i
                     (o ++ [clear_prompt]) (t ++ [(Rm_r deb, 0)])).
Proof.
  intros He Hp Hr. rewrite clear_or_create_accepted by done.
  rewrite clear_or_create_absent
    by (apply exists_in_false; by apply rm_r_under).
  rewrite rm_r_other by apply sibling_not_staged.
  apply is_dir_true in Hp. by rewrite Hp.
Qed.

(** After a creation, or a removal and a creation, the staging directory
    is an empty directory in a directory. *)
Lemma cc_fresh f i o t :
  (exists_in f deb = false → ∀ p, deb `prefix_of` p → f !! p = None) →
  (exists_in f deb = false ∨ ∃ r i', i = r :: i' ∧ affirmative r = true) →
  (cc f i o t).1 = inl tt →
  (∀ p, deb `prefix_of` p →
        fs (cc f i o t).2 !! p = if decide (p = deb) then Some Dir else None) ∧
  is_dir (fs (cc f i o t).2) pdeb = true.
Proof.
  intros Hnone Hc.
  assert (Key : ∀ g i o t,
    (∀ p, deb `prefix_of` p → g !! p = None) →
    (cc g i o t).1 = inl tt →
    (∀ p, deb `prefix_of` p →
          fs (cc g i o t).2 !! p
          = if decide (p = deb) then Some Dir else None) ∧
    is_dir (fs (cc g i o t).2) pdeb = true).
  { clear. intros g i o t Hg.
    rewrite clear_or_create_absent
      by (apply exists_in_false, Hg, deb_prefix_self).
    destruct (g !! pdeb) as [[|b]|] eqn:Ep; [|done|].
    - simpl. intros _. split.
      + intros p Hp. rewrite lookup_insert.
        repeat case_decide; subst; try done. by apply Hg.
      + unfold is_dir.
        rewrite lookup_insert_ne by apply deb_neq_parent. by rewrite Ep.
    - destruct (g !! pkg) as [[|b]|]; [|done|done].
      simpl. intros _. split.
      + intros p Hp. rewrite lookup_insert.
        repeat case_decide; subst; try done.
        rewrite lookup_insert_ne; [by apply Hg|].
        apply (unstaged_neq tf _ _ (sibling_not_staged tf "otterlang") Hp).
      + unfold is_dir.
        rewrite lookup_insert_ne by apply deb_neq_parent.
        by rewrite lookup_insert_eq. }
  destruct (exists_in f deb) eqn:He.
  - destruct Hc as [? | (r & i' & -> & Hr)]; [done|].
    rewrite clear_or_create_accepted by done. apply Key.
    intros p Hp. by apply rm_r_under.
  - apply Key. by apply Hnone.
Qed.

(** In a well-formed tree, an accepted clearing cannot end in an
    exception: the step can only fail when it has to create the staging
    directory from nothing, and then it leaves the tree as it was. *)
Lemma cc_raise_unchanged f r i o t s :
  wf_fs f → affirmative r = true →
  (cc f (r :: i) o t).1 = inr s →
  exists_in f deb = false ∧ fs (cc f (r :: i) o t).2 = f.
Proof.
  intros Hwf Hr. destruct (exists_in f deb) eqn:He.
  - rewrite cc_accepted_ok; try done.
    apply exists_in_true in He as [n Hn]. apply is_dir_true.
    rewrite <- (parent_deb tf). by apply (wf_parent _ _ n).
  - rewrite clear_or_create_absent by done.
    by repeat case_match.
Qed.

End Idempotence.

Lemma metadata_not_deb_file tf n :
  n ∈ metadata_names → pkg_dir tf // n ≠ deb_file tf.
Proof.
  intros Hn E. apply child_inj in E as [_ ->]. unfold metadata_names in Hn.
  repeat (apply elem_of_cons in Hn as [Hn | Hn]; [discriminate Hn|]).
  by apply elem_of_nil in Hn.
Qed.

(** C6. Running the script twice in a row, each time with an affirmative
    answer ready for the prompt, leaves the same staging directory after
    the second run as after the first, and both runs end the same way. *)
Theorem rerun_idempotent tf A f r1 i1 r2 i2 :
  wf_fs f → affirmative r1 = true → affirmative r2 = true →
  subtree (otter_deb_path tf)
          (fs (run tf A (fs (run tf A f (r1 :: i1)).2) (r2 :: i2)).2)
  = subtree (otter_deb_path tf) (fs (run tf A f (r1 :: i1)).2) ∧
  (run tf A (fs (run tf A f (r1 :: i1)).2) (r2 :: i2)).1
  = (run tf A f (r1 :: i1)).1.
Proof.
  intros Hwf Hr1 Hr2.
  rewrite (run_eq tf A f).
  pose proof (cc_raise_unchanged tf A f r1 i1 [banner tf] []) as Hraise.
  pose proof (cc_fresh tf A f (r1 :: i1) [banner tf] []) as Hfresh.
  pose proof (cc_other tf A f (r1 :: i1) [banner tf] []) as Hother.
  destruct (clear_or_create tf A (mkWorld f (r1 :: i1) [banner tf] []))
    as [[[]|s] w2] eqn:Ecc; simpl in *.
  2:{ destruct (Hraise s Hwf Hr1 eq_refl) as [He Hf2].
      rewrite Hf2, run_eq.
      destruct (cc_absent_indep tf A f (r2 :: i2) [banner tf] []
                  (r1 :: i1) [banner tf] [] He) as [E1 E2].
      rewrite Ecc in E1, E2. simpl in *.
      destruct (clear_or_create tf A (mkWorld f (r2 :: i2) [banner tf] []))
        as [[[]|s'] w3]; simpl in *; [done|]. by rewrite E1, E2, Hf2. }
  destruct Hfresh as [Hst Hpd]; [| right; eauto | done |].
  { intros He p Hp. apply exists_in_false in He.
    by apply (wf_absent_under f (otter_deb_path tf) p). }
  set (f1 := fs (finish tf A w2).2).
  assert (He1 : exists_in f1 (otter_deb_path tf) = true).
  { apply finish_exists. unfold exists_in.
    rewrite (Hst _ (deb_prefix_self tf)). by rewrite decide_True. }
  assert (Hp1 : is_dir f1 (pkg_dir tf // "otterlang") = true)
    by by apply finish_dir_stays.
  rewrite run_eq, cc_accepted_ok by done.
  set (g2 := <[otter_deb_path tf := Dir]> (rm_r (otter_deb_path tf) f1).1).
  assert (Hsame : same_inputs tf (fs w2) g2).
  { repeat split.
    - intros p Hp. rewrite (Hst p Hp). unfold g2. rewrite lookup_insert.
      repeat case_decide; subst; try done. symmetry. by apply rm_r_under.
    - unfold g2. rewrite lookup_insert_ne by apply deb_neq_bin.
      rewrite rm_r_other by apply bin_not_staged.
      unfold f1. rewrite finish_other; [done | apply bin_not_staged | path_neq].
    - intros n Hn. unfold g2.
      rewrite lookup_insert_ne by path_neq.
      rewrite rm_r_other by apply sibling_not_staged.
      unfold f1. rewrite finish_other;
        [done | apply sibling_not_staged | by apply metadata_not_deb_file].
    - rewrite Hpd. unfold g2, is_dir.
      rewrite lookup_insert_ne by apply deb_neq_parent.
      rewrite rm_r_other by apply sibling_not_staged.
      by apply is_dir_true in Hp1 as ->. }
  destruct (finish_same_inputs tf A A w2
              (mkWorld g2 i2 ([banner tf] ++ [clear_prompt])
                       ([] ++ [(Rm_r (otter_deb_path tf), 0)])) Hsame)
    as [Eres Efs].
  split; [|done].
  apply map_eq. intros p. rewrite !subtree_lookup.
  case_decide; [|done]. symmetry. by apply Efs.
Qed.

Lemma rerun_idempotent_witness :
  (run tool sample_archiver
       (fs (run tool sample_archiver stale_tree ["y"]).2) ["Y"]).1
  = (run tool sample_archiver stale_tree ["y"]).1.
Proof.
  assert (H1 : wf_fs stale_tree)
    by (apply wf_fsb_sound; vm_compute; reflexivity).
  assert (H2 : affirmative "y" = true) by reflexivity.
  assert (H3 : affirmative "Y" = true) by reflexivity.
  exact (proj2 (rerun_idempotent tool sample_archiver stale_tree
                  "y" [] "Y" [] H1 H2 H3)).
Defined.

(** ** Further properties of the script *)


(** *** The tree stays a tree *)

Lemma wf_insert (f : FS) (p : path) (n : node) :
  wf_fs f → is_dir f (parent p) = true →
  is_dir f p = false ∨ n = Dir →
  wf_fs (<[p := n]> f).
Proof.
  intros [Hroot Hall] Hpar Hn. split.
  - unfold is_dir. destruct (decide (p = [])) as [->|Hne].
    + rewrite lookup_insert_eq. destruct Hn as [Hn | ->]; [congruence | done].
    + by rewrite lookup_insert_ne.
  - intros q x Hq. unfold is_dir.
    assert (Hpq : is_dir f (parent q) = true).
    { destruct (decide (q = p)) as [->|Hne]; [done|].
      rewrite lookup_insert_ne in Hq by done. by apply (Hall q x). }
    destruct (decide (parent q = p)) as [E|Hne].
    + rewrite E, lookup_insert_eq. rewrite E in Hpq.
      destruct Hn as [Hn | ->]; [congruence | done].
    + by rewrite lookup_insert_ne.
Qed.

Lemma parent_prefix (p : path) : parent p `prefix_of` p.
Proof.
  destruct (parent_cases p) as [E | [x E]].
  - by rewrite <- E.
  - rewrite E at 2. by apply prefix_app_r.
Qed.

Lemma wf_rm_r (f : FS) (p : path) : wf_fs f → p ≠ [] → wf_fs (rm_r p f).1.
Proof.
  intros [Hroot Hall] Hp. split.
  - unfold is_dir. rewrite rm_r_other; [done|].
    intros [k Hk]. by destruct p.
  - intros q x Hq. unfold rm_r in *.
    destruct (exists_in f p) eqn:He; simpl in *; [|by apply (Hall q x)].
    apply map_lookup_filter_Some in Hq as [Hq Hnp]. simpl in Hnp.
    pose proof (Hall q x Hq) as Hd. apply is_dir_true in Hd.
    apply is_dir_true, map_lookup_filter_Some. split; [done|].
    simpl. intros Hpre. apply Hnp.
    by etrans; [|apply parent_prefix].
Qed.

Lemma wf_mkdir (f g : FS) (p : path) : wf_fs f → mkdir p f = inr g → wf_fs g.
Proof.
  intros Hwf Hm. unfold mkdir in Hm. repeat case_match; simplify_eq.
  apply wf_insert; [done | by apply is_dir_true | by right].
Qed.

Lemma wf_cp (f : FS) (src dst : path) : wf_fs f → wf_fs (cp src dst f).1.
Proof.
  intros Hwf. unfold cp.
  destruct (f !! src) as [[|b]|]; try done.
  destruct (f !! dst) as [[|c]|] eqn:Ed.
  - destruct (f !! (dst // basename src)) as [[|c]|] eqn:Et; try done;
      case_decide; simpl; try done;
      (apply wf_insert; [done | rewrite parent_child; by apply is_dir_true |]);
      left; unfold is_dir; by rewrite Et.
  - case_decide; simpl; try done. apply wf_insert; [done | |].
    + apply is_dir_true. by apply (wf_parent _ _ _ Hwf Ed).
    + left. unfold is_dir. by rewrite Ed.
  - destruct (is_dir f (parent dst)) eqn:Ep; simpl; try done.
    apply wf_insert; [done | done |]. left. unfold is_dir. by rewrite Ed.
Qed.

Lemma wf_dpkg (A : Archiver) (f : FS) (d out : path) :
  wf_fs f → wf_fs (dpkg_deb_b A d out f).1.
Proof.
  intros Hwf. unfold dpkg_deb_b. destruct (A f d); [done|].
  destruct (is_dir f out) eqn:Eo; [done|].
  destruct (is_dir f (parent out)) eqn:Ep; [|done]. simpl.
  apply wf_insert; auto.
Qed.

Lemma wf_exec_all (A : Archiver) (cs : list command) (f : FS) :
  wf_fs f → (∀ p, Rm_r p ∈ cs → p ≠ []) → wf_fs (exec_all A cs f).1.
Proof.
  revert f. induction cs as [|c cs IH]; intros f Hwf Hrm; [done|].
  simpl. apply IH.
  - destruct c; simpl.
    + apply wf_rm_r; [done|]. apply Hrm, elem_of_cons. by left.
    + by apply wf_cp.
    + by apply wf_dpkg.
  - intros p Hp. apply Hrm, elem_of_cons. by right.
Qed.

Lemma deb_not_root tf : otter_deb_path tf ≠ [].
Proof. unfold otter_deb_path, child. intros H. by destruct (pkg_dir tf). Qed.

Lemma wf_clear_or_create tf A f i o t :
  wf_fs f → wf_fs (fs (clear_or_create tf A (mkWorld f i o t)).2).
Proof.
  intros Hwf.
  pose proof (wf_rm_r f (otter_deb_path tf) Hwf (deb_not_root tf)) as Hrm.
  assert (Key : ∀ g i o t, wf_fs g →
    g !! otter_deb_path tf = None →
    wf_fs (fs (clear_or_create tf A (mkWorld g i o t)).2)).
  { clear. intros g i o t Hg Hn.
    rewrite clear_or_create_absent by by apply exists_in_false.
    destruct (g !! (pkg_dir tf // "otterlang")) as [[|b]|] eqn:Ep;
      simpl; try done.
    - apply wf_insert; [done | | by right].
      rewrite parent_deb. unfold is_dir. by rewrite Ep.
    - destruct (g !! pkg_dir tf) as [[|b]|] eqn:Ek; simpl; try done.
      apply wf_insert; [| | by right].
      + apply wf_insert; [done | | by right].
        rewrite parent_child. unfold is_dir. by rewrite Ek.
      + rewrite parent_deb. unfold is_dir. by rewrite lookup_insert_eq. }
  destruct (exists_in f (otter_deb_path tf)) eqn:He.
  - destruct i as [|r i]; [by rewrite clear_or_create_eof|].
    destruct (affirmative r) eqn:Hr.
    + rewrite clear_or_create_accepted by done.
      apply Key; [done | by apply rm_r_under].
    + by rewrite clear_or_create_declined.
  - apply Key; [done | by apply exists_in_false].
Qed.

Lemma wf_finish tf A w : wf_fs (fs w) → wf_fs (fs (finish tf A w).2).
Proof.
  intros Hwf.
  assert (Hcs : ∀ p, Rm_r p ∈ copy_cmds tf ++ [archive_cmd tf] → p ≠ []).
  { intros p Hp. unfold copy_cmds, archive_cmd in Hp. simpl in Hp.
    repeat (apply elem_of_cons in Hp as [Hp | Hp]; [discriminate Hp|]).
    by apply elem_of_nil in Hp. }
  destruct (exists_in (fs w) (otter_bin_path tf)) eqn:Eb.
  2:{ by rewrite finish_missing. }
  rewrite finish_present by done.
  destruct (exists_in (fs w) (deb_bin tf)) eqn:Ed.
  - cbn [fst snd fs]. by apply wf_exec_all.
  - destruct (mkdir (deb_bin tf) (fs w)) as [e|f3] eqn:Em; [done|].
    cbn [fst snd fs]. apply wf_exec_all; [|done].
    by apply (wf_mkdir (fs w) f3 (deb_bin tf)).
Qed.

(** X2. A run keeps the tree well formed: whatever it removes, creates or
    copies, and however it ends, every entry it leaves sits in a
    directory. *)
Theorem run_preserves_wf tf A f inp :
  wf_fs f → wf_fs (fs (run tf A f inp).2).
Proof.
  intros Hwf. rewrite run_eq.
  pose proof (wf_clear_or_create tf A f inp [banner tf] [] Hwf) as Hc.
  destruct (clear_or_create tf A _) as [[[]|s] w2]; simpl in *; [|done].
  by apply wf_finish.
Qed.

Lemma run_preserves_wf_witness :
  wf_fs (fs (run tool sample_archiver stale_tree ["y"]).2).
Proof.
  apply run_preserves_wf.
  apply wf_fsb_sound. vm_compute. reflexivity.
Defined.

(** *** Uncaught exceptions *)

Lemma finish_with_staging tf A w :
  fs w !! otter_deb_path tf = Some Dir →
  (finish tf A w).1 = inl tt ∨ (finish tf A w).1 = inr (Exit None).
Proof.
  intros Hd. destruct (exists_in (fs w) (otter_bin_path tf)) eqn:Eb.
  - left. by apply finish_completes.
  - right. by rewrite finish_missing.
Qed.




(** *** Edge cases of the population *)

Lemma cp_onto_file (src dst : path) (f : FS) b c :
  f !! src = Some (File b) → f !! dst = Some (File c) → dst ≠ src →
  cp src dst f = (<[dst := File b]> f, 0).
Proof.
  intros Hs Hd Hne. unfold cp. rewrite Hs, Hd. by rewrite decide_False.
Qed.

(** X4. A regular file named [bin] left in the staging directory is not
    replaced by a directory: when the clearing is declined, the script
    sees that [bin] exists, skips its creation, and the copy of the release
    binary overwrites the file [bin] itself; no [bin/otter] comes into
    being, and the run still goes through to its end. *)
Theorem stale_bin_file_overwritten tf A f r inp b :
  wf_fs f →
  is_dir f (otter_deb_path tf) = true →
  affirmative r = false →
  f !! otter_bin_path tf = Some (File b) →
  is_file f (deb_bin tf) = true →
  (run tf A f (r :: inp)).1 = inl tt ∧
  fs (run tf A f (r :: inp)).2 !! deb_bin tf = Some (File b) ∧
  fs (run tf A f (r :: inp)).2 !! (deb_bin tf // "otter") = None.
Proof.
  intros Hwf Hd Hr Hb Hf.
  pose proof (is_dir_exists _ _ Hd) as He.
  apply is_file_true in Hf as [c Hc].
  assert (Hbe : exists_in f (otter_bin_path tf) = true)
    by (unfold exists_in; by rewrite Hb).
  assert (Hde : exists_in f (deb_bin tf) = true)
    by (unfold exists_in; by rewrite Hc).
  assert (Ho : f !! (deb_bin tf // "otter") = None).
  { apply wf_absent_child; [done|]. unfold is_dir. by rewrite Hc. }
  assert (Hcp : cp (otter_bin_path tf) (deb_bin tf) f
                = (<[deb_bin tf := File b]> f, 0)).
  { apply cp_onto_file with (c := c); [done | done | path_neq]. }
  rewrite run_eq, clear_or_create_declined by done.
  rewrite finish_present by done. cbn [fs]. rewrite Hde.
  rewrite exec_all_app. cbn [fst snd fs]. rewrite exec_archive.
  split; [done|]. split.
  - rewrite dpkg_other by path_neq. simpl.
    do 4 (rewrite cp_other; [| rewrite ?basename_child; path_neq ..]).
    rewrite Hcp. apply lookup_insert_eq.
  - rewrite dpkg_other by path_neq. simpl.
    do 4 (rewrite cp_other; [| rewrite ?basename_child; path_neq ..]).
    rewrite Hcp. simpl. rewrite lookup_insert_ne by path_neq. done.
Qed.

Lemma stale_bin_file_overwritten_witness :
  fs (run tool sample_archiver
        (<[deb_bin tool := File [x00]]>
           (<[otter_deb_path tool := Dir]>
              (<[pkg_dir tool // "otterlang" := Dir]> fresh_tree)))
        ["n"]).2 !! deb_bin tool
  = Some (File [x7f; x45; x4c; x46]).
Proof.
  refine (proj1 (proj2 (stale_bin_file_overwritten tool sample_archiver _
                          "n" [] [x7f; x45; x4c; x46] _ _ _ _ _))).
  - apply wf_fsb_sound. vm_compute. reflexivity.
  - vm_compute. reflexivity.
  - reflexivity.
  - vm_compute. reflexivity.
  - vm_compute. reflexivity.
Defined.

(** X5. The check before the population is for existence only: when a
    directory sits at the path of the release binary, a run that reaches
    its end has issued the copy of the binary, the copy has failed with
    status 1 without consequence, and [bin/otter] is what the
    clear-or-create step left there. *)
Theorem binary_directory_passes_check tf A f inp :
  is_dir f (otter_bin_path tf) = true →
  (run tf A f inp).1 = inl tt →
  (Cp (otter_bin_path tf) (deb_bin tf), 1) ∈ trace (run tf A f inp).2 ∧
  fs (run tf A f inp).2 !! (deb_bin tf // "otter")
  = fs (clear_or_create tf A (mkWorld f inp [banner tf] [])).2
      !! (deb_bin tf // "otter").
Proof.
  intros Hb. rewrite run_eq.
  pose proof (cc_other tf A f inp [banner tf] [] (otter_bin_path tf)
                (bin_not_staged tf)
                (not_eq_sym (parent_deb_neq_bin tf))) as Hb2.
  destruct (clear_or_create tf A _) as [[[]|s] w2]; simpl in *; [|done].
  apply is_dir_true in Hb. rewrite Hb in Hb2.
  assert (Hbe : exists_in (fs w2) (otter_bin_path tf) = true)
    by (unfold exists_in; by rewrite Hb2).
  rewrite finish_present by done.
  assert (Hcp : ∀ f3, f3 !! otter_bin_path tf = Some Dir →
                      cp (otter_bin_path tf) (deb_bin tf) f3 = (f3, 1)).
  { intros f3 H3. apply cp_no_source. unfold is_file. by rewrite H3. }
  assert (Hall : ∀ f3, f3 !! otter_bin_path tf = Some Dir →
    (Cp (otter_bin_path tf) (deb_bin tf), 1)
      ∈ trace w2 ++ (exec_all A (copy_cmds tf ++ [archive_cmd tf]) f3).2 ∧
    (exec_all A (copy_cmds tf ++ [archive_cmd tf]) f3).1
      !! (deb_bin tf // "otter") = f3 !! (deb_bin tf // "otter")).
  { intros f3 H3. rewrite exec_all_app. cbn [fst snd]. split.
    - apply elem_of_app. right. apply elem_of_app. left.
      simpl. rewrite (Hcp f3 H3). apply elem_of_cons. by left.
    - rewrite exec_archive, dpkg_other by path_neq. simpl.
      do 4 (rewrite cp_other; [| rewrite ?basename_child; path_neq ..]).
      by rewrite (Hcp f3 H3). }
  destruct (exists_in (fs w2) (deb_bin tf)) eqn:Ed.
  - intros _. cbn [fst snd fs trace]. by apply Hall.
  - destruct (mkdir (deb_bin tf) (fs w2)) as [e|f3] eqn:Em; [done|].
    intros _. cbn [fst snd fs trace].
    unfold mkdir in Em. repeat case_match; simplify_eq.
    destruct (Hall (<[deb_bin tf := Dir]> (fs w2))) as [H1 H2].
    { rewrite lookup_insert_ne by path_neq. done. }
    split; [done|]. rewrite H2. by rewrite lookup_insert_ne by path_neq.
Qed.

Lemma binary_directory_passes_check_witness :
  (Cp (otter_bin_path tool) (deb_bin tool), 1)
    ∈ trace (run tool sample_archiver
               (<[otter_bin_path tool := Dir]> fresh_tree) []).2.
Proof.
  refine (proj1 (binary_directory_passes_check tool sample_archiver _ [] _ _)).
  - vm_compute. reflexivity.
  - vm_compute. reflexivity.
Defined.

(** *** Commands and interaction *)

Lemma finish_stopped_trace tf A w :
  (finish tf A w).1 ≠ inl tt → trace (finish tf A w).2 = trace w.
Proof.
  destruct (exists_in (fs w) (otter_bin_path tf)) eqn:Eb.
  2:{ by rewrite finish_missing. }
  rewrite finish_present by done.
  by destruct (if exists_in (fs w) (deb_bin tf) then _ else _).
Qed.

(** X6. The archiver is invoked exactly in the runs that reach their end;
    such a run has issued, in this order, the removal of the staging
    directory if the clearing was accepted, the copy of the binary, the
    copies of [control], [changelog], [copyright] and [rules], and the
    archiver, and nothing else. *)
Theorem archiver_runs_iff_completes tf A f inp :
  (archive_cmd tf ∈ (trace (run tf A f inp).2).*1
   ↔ (run tf A f inp).1 = inl tt) ∧
  ((run tf A f inp).1 = inl tt →
   ∃ pre, (pre = [] ∨ pre = [Rm_r (otter_deb_path tf)]) ∧
          (trace (run tf A f inp).2).*1
          = pre ++ copy_cmds tf ++ [archive_cmd tf]).
Proof.
  rewrite run_eq.
  pose proof (cc_trace tf A f inp [banner tf] []) as Htr.
  destruct (clear_or_create tf A _) as [[[]|s] w2]; simpl in *.
  - assert (Hdone : (finish tf A w2).1 = inl tt →
      ∃ pre, (pre = [] ∨ pre = [Rm_r (otter_deb_path tf)]) ∧
             (trace (finish tf A w2).2).*1
             = pre ++ copy_cmds tf ++ [archive_cmd tf]).
    { intros Hok. destruct (finish_done tf A w2 Hok) as (_ & _ & -> & _).
      exists (trace w2).*1. split; [|done].
      destruct Htr as [-> | ->]; auto. }
    split; [|done]. split.
    + intros Hin.
      destruct ((finish tf A w2).1) as [[]|s] eqn:E; [done|]. exfalso.
      rewrite (finish_stopped_trace tf A w2) in Hin by (by rewrite E).
      destruct Htr as [Ht | Ht]; rewrite Ht in Hin; simpl in Hin.
      * by apply elem_of_nil in Hin.
      * apply list_elem_of_singleton in Hin. discriminate Hin.
    + intros Hok. destruct (Hdone Hok) as (pre & _ & ->).
      apply elem_of_app. right. apply elem_of_app. right.
      by apply list_elem_of_singleton.
  - split; [|done]. split; [|done]. intros Hin.
    destruct Htr as [Ht | Ht]; rewrite Ht in Hin; simpl in Hin.
    + by apply elem_of_nil in Hin.
    + apply list_elem_of_singleton in Hin. discriminate Hin.
Qed.

Lemma cc_interaction tf A f i o t :
  stdout (clear_or_create tf A (mkWorld f i o t)).2
  = o ++ (if exists_in f (otter_deb_path tf) then [clear_prompt] else []) ∧
  stdin (clear_or_create tf A (mkWorld f i o t)).2
  = (if exists_in f (otter_deb_path tf) then tail i else i) ∧
  ∀ c, (clear_or_create tf A (mkWorld f i o t)).1 ≠ inr (Exit c).
Proof.
  cc_cases tf f i He Hr; repeat case_match; simpl;
    rewrite ?app_nil_r; done.
Qed.

Lemma finish_interaction tf A w :
  stdout (finish tf A w).2
  = stdout w ++ match (finish tf A w).1 with
                | inr (Exit _) => [missing_msg]
                | _ => []
                end ∧
  stdin (finish tf A w).2 = stdin w.
Proof.
  destruct (exists_in (fs w) (otter_bin_path tf)) eqn:Eb.
  2:{ by rewrite finish_missing. }
  rewrite finish_present by done.
  destruct (if exists_in (fs w) (deb_bin tf) then _ else _); simpl;
    by rewrite app_nil_r.
Qed.

(** X7. What a run prints and reads: first the line announcing the
    staging directory; then the prompt, exactly when the staging path
    exists; then the message about the missing binaries, exactly when the
    run ends through [exit()]; nothing else.  One line of standard input
    is consumed when the staging path exists, none otherwise. *)
Theorem run_interaction tf A f inp :
  stdout (run tf A f inp).2
  = [banner tf]
    ++ (if exists_in f (otter_deb_path tf) then [clear_prompt] else [])
    ++ match (run tf A f inp).1 with
       | inr (Exit _) => [missing_msg]
       | _ => []
       end ∧
  stdin (run tf A f inp).2
  = if exists_in f (otter_deb_path tf) then tail inp else inp.
Proof.
  rewrite run_eq.
  destruct (cc_interaction tf A f inp [banner tf] []) as (Ho & Hi & Hx).
  destruct (clear_or_create tf A _) as [[[]|s] w2]; simpl in *.
  - destruct (finish_interaction tf A w2) as [-> ->].
    by rewrite Ho, Hi.
  - rewrite Ho, Hi. destruct s as [c|e]; [by destruct (Hx c)|].
    by rewrite app_nil_r.
Qed.

(** *** Clearing *)

(** X8. After an accepted or unneeded clearing, the staging directory a
    run leaves is a function of the release binary and the four metadata
    sources alone: two well-formed trees that agree on these five paths
    give, with affirmative answers and without uncaught exception, the
    same staging directory and the same end, whatever else the trees
    hold, whatever was staged before and whatever the archivers do. *)
Theorem staging_determined_by_inputs tf A1 A2 f g r1 i1 r2 i2 :
  wf_fs f → wf_fs g →
  affirmative r1 = true → affirmative r2 = true →
  f !! otter_bin_path tf = g !! otter_bin_path tf →
  (∀ n, n ∈ metadata_names →
        f !! (pkg_dir tf // n) = g !! (pkg_dir tf // n)) →
  (∀ e, (run tf A1 f (r1 :: i1)).1 ≠ inr (Raise e)) →
  (∀ e, (run tf A2 g (r2 :: i2)).1 ≠ inr (Raise e)) →
  subtree (otter_deb_path tf) (fs (run tf A1 f (r1 :: i1)).2)
  = subtree (otter_deb_path tf) (fs (run tf A2 g (r2 :: i2)).2) ∧
  (run tf A1 f (r1 :: i1)).1 = (run tf A2 g (r2 :: i2)).1.
Proof.
  intros Hwf Hwg Hr1 Hr2 Hb Hm. rewrite !run_eq.
  assert (Hfresh : ∀ A h r i, wf_fs h → affirmative r = true →
    (clear_or_create tf A (mkWorld h (r :: i) [banner tf] [])).1 = inl tt →
    (∀ p, otter_deb_path tf `prefix_of` p →
          fs (clear_or_create tf A (mkWorld h (r :: i) [banner tf] [])).2 !! p
          = if decide (p = otter_deb_path tf) then Some Dir else None) ∧
    is_dir (fs (clear_or_create tf A (mkWorld h (r :: i) [banner tf] [])).2)
           (pkg_dir tf // "otterlang") = true).
  { intros A h r i Hwh Hr Hok. apply cc_fresh; [| right; eauto | done].
    intros He p Hp. apply exists_in_false in He.
    by apply (wf_absent_under h (otter_deb_path tf) p). }
  pose proof (Hfresh A1 f r1 i1 Hwf Hr1) as Hf1.
  pose proof (Hfresh A2 g r2 i2 Hwg Hr2) as Hf2.
  pose proof (cc_other tf A1 f (r1 :: i1) [banner tf] []) as Ho1.
  pose proof (cc_other tf A2 g (r2 :: i2) [banner tf] []) as Ho2.
  pose proof (cc_result tf A1 f (r1 :: i1) [banner tf] []) as Hres1.
  pose proof (cc_result tf A2 g (r2 :: i2) [banner tf] []) as Hres2.
  destruct (clear_or_create tf A1 _) as [[[]|s1] w1]; simpl in *.
  2:{ intros H1 _. destruct Hres1 as [? | [e E]]; [done|]. by destruct (H1 e). }
  destruct (clear_or_create tf A2 _) as [[[]|s2] w2]; simpl in *.
  2:{ intros _ H2. destruct Hres2 as [? | [e E]]; [done|]. by destruct (H2 e). }
  intros _ _.
  destruct (Hf1 eq_refl) as [Hst1 Hp1]. destruct (Hf2 eq_refl) as [Hst2 Hp2].
  assert (Hsame : same_inputs tf (fs w1) (fs w2)).
  { repeat split.
    - intros p Hp. by rewrite Hst1, Hst2.
    - rewrite Ho1, Ho2;
        try apply bin_not_staged;
        try apply not_eq_sym, parent_deb_neq_bin. done.
    - intros n Hn. rewrite Ho1, Ho2;
        try apply sibling_not_staged;
        try (by apply metadata_not_otterlang). by apply Hm.
    - by rewrite Hp1, Hp2. }
  destruct (finish_same_inputs tf A1 A2 w1 w2 Hsame) as [Eres Efs].
  split; [|done].
  apply map_eq. intros p. rewrite !subtree_lookup.
  case_decide; [|done]. by apply Efs.
Qed.

Lemma staging_determined_by_inputs_witness :
  subtree (otter_deb_path tool)
          (fs (run tool sample_archiver stale_tree ["y"]).2)
  = subtree (otter_deb_path tool)
            (fs (run tool failing_archiver fresh_tree ["Y"]).2).
Proof.
  refine (proj1 (staging_determined_by_inputs tool sample_archiver
                   failing_archiver stale_tree fresh_tree "y" [] "Y" []
                   _ _ _ _ _ _ _ _)).
  - apply wf_fsb_sound. vm_compute. reflexivity.
  - apply wf_fsb_sound. vm_compute. reflexivity.
  - reflexivity.
  - reflexivity.
  - vm_compute. reflexivity.
  - intros n Hn. unfold metadata_names in Hn.
    repeat (apply elem_of_cons in Hn as [-> | Hn];
            [vm_compute; reflexivity|]).
    by apply elem_of_nil in Hn.
  - intros e. vm_compute. discriminate.
  - intros e. vm_compute. discriminate.
Defined.

(** X9. The clearing comes before the check for the release binary: when
    the staging path exists, the answer is affirmative and the release
    binary is missing, the run removes the staged tree, creates the
    directory again and stops through [exit()], leaving an empty staging
    directory and having issued the removal alone. *)
Theorem accepted_clear_without_binary_empties tf A f r inp :
  wf_fs f →
  exists_in f (otter_deb_path tf) = true →
  affirmative r = true →
  exists_in f (otter_bin_path tf) = false →
  (run tf A f (r :: inp)).1 = inr (Exit None) ∧
  subtree (otter_deb_path tf) (fs (run tf A f (r :: inp)).2)
  = {[otter_deb_path tf := Dir]} ∧
  trace (run tf A f (r :: inp)).2 = [(Rm_r (otter_deb_path tf), 0)].
Proof.
  intros Hwf He Hr Hb.
  assert (Hp : is_dir f (pkg_dir tf // "otterlang") = true).
  { apply exists_in_true in He as [n Hn]. apply is_dir_true.
    rewrite <- (parent_deb tf). by apply (wf_parent _ _ n). }
  rewrite run_eq, cc_accepted_ok by done.
  rewrite finish_missing.
  - simpl. split; [done|]. split; [|done].
    by apply subtree_created, subtree_rm.
  - simpl. unfold exists_in in *.
    rewrite lookup_insert_ne by apply deb_neq_bin.
    by rewrite rm_r_other by apply bin_not_staged.
Qed.

Lemma accepted_clear_without_binary_empties_witness :
  subtree (otter_deb_path tool)
          (fs (run tool sample_archiver stale_unbuilt_tree ["y"]).2)
  = {[otter_deb_path tool := Dir]}.
Proof.
  refine (proj1 (proj2 (accepted_clear_without_binary_empties
                          tool sample_archiver stale_unbuilt_tree "y" []
                          _ _ _ _))).
  - apply wf_fsb_sound. vm_compute. reflexivity.
  - vm_compute. reflexivity.
  - reflexivity.
  - vm_compute. reflexivity.
Defined.

(** *** Creation and archive *)

(** X10. [os.mkdir] creates one level at a time and the script provides
    for two: in a well-formed tree without [otterlang], a run creates
    [otterlang] and then the staging directory when the package directory
    is there, and dies of [FileNotFoundError], leaving the tree as it was
    and having printed the first line only, when it is not. *)
Theorem missing_parent_created tf A f inp :
  wf_fs f →
  f !! (pkg_dir tf // "otterlang") = None →
  (is_dir f (pkg_dir tf) = true →
   is_dir (fs (run tf A f inp).2) (pkg_dir tf // "otterlang") = true ∧
   is_dir (fs (run tf A f inp).2) (otter_deb_path tf) = true ∧
   ∀ e, (run tf A f inp).1 ≠ inr (Raise e)) ∧
  (f !! pkg_dir tf = None →
   run tf A f inp
   = (inr (Raise FileNotFoundError), mkWorld f inp [banner tf] [])).
Proof.
  intros Hwf Hp.
  assert (He : exists_in f (otter_deb_path tf) = false).
  { apply exists_in_false. unfold otter_deb_path.
    apply wf_absent_child; [done|]. unfold is_dir. by rewrite Hp. }
  rewrite run_eq, clear_or_create_absent by done. rewrite Hp. split.
  - intros Hk. apply is_dir_true in Hk. rewrite Hk.
    set (w2 := mkWorld _ inp [banner tf] []).
    assert (Hd : fs w2 !! otter_deb_path tf = Some Dir)
      by apply lookup_insert_eq.
    split; [|split].
    + apply finish_dir_stays, is_dir_true. simpl.
      rewrite lookup_insert_ne by apply deb_neq_parent.
      apply lookup_insert_eq.
    + by apply finish_dir_stays, is_dir_true.
    + intros e. by destruct (finish_with_staging tf A w2 Hd) as [-> | ->].
  - by intros ->.
Qed.

Lemma missing_parent_created_witness :
  is_dir (fs (run tool sample_archiver fresh_tree []).2)
         (pkg_dir tool // "otterlang") = true.
Proof.
  assert (H1 : wf_fs fresh_tree)
    by (apply wf_fsb_sound; vm_compute; reflexivity).
  assert (H2 : fresh_tree !! (pkg_dir tool // "otterlang") = None)
    by (vm_compute; reflexivity).
  assert (H3 : is_dir fresh_tree (pkg_dir tool) = true)
    by (vm_compute; reflexivity).
  exact (proj1 (proj1 (missing_parent_created tool sample_archiver
                         fresh_tree [] H1 H2) H3)).
Defined.

(** X11. The archiver comes last and is handed [otterlang], the parent of
    the staging directory: in a run that reaches its end with an archiver
    that packs, the archive holds what the archiver made of a tree that
    differs from the final tree at most in the archive file itself, the
    staging directory being already populated. *)
Theorem archive_made_from_final_tree tf pack f inp :
  (run tf (packing pack) f inp).1 = inl tt →
  is_dir f (deb_file tf) = false →
  is_dir f (pkg_dir tf) = true →
  ∃ g : FS, fs (run tf (packing pack) f inp).2 !! deb_file tf
       = Some (File (pack g (pkg_dir tf // "otterlang"))) ∧
       ∀ p, p ≠ deb_file tf →
            g !! p = fs (run tf (packing pack) f inp).2 !! p.
Proof.
  rewrite run_eq. intros Hok Ho Hk.
  assert (Ho2 : is_dir (fs (clear_or_create tf (packing pack)
                  (mkWorld f inp [banner tf] [])).2) (deb_file tf) = false).
  { apply cc_not_dir; [path_neq | path_neq | done]. }
  assert (Hk2 : is_dir (fs (clear_or_create tf (packing pack)
                  (mkWorld f inp [banner tf] [])).2) (pkg_dir tf) = true).
  { unfold is_dir in *. rewrite cc_other; [done | apply pkg_not_staged |].
    apply child_neq_self. }
  destruct (clear_or_create tf (packing pack) _) as [[[]|s] w2];
    simpl in *; [|done].
  destruct (finish_done tf _ w2 Hok) as (_ & _ & _ & f3 & -> & Hf3).
  assert (H3 : is_dir f3 (deb_file tf) = false ∧ is_dir f3 (pkg_dir tf) = true).
  { destruct Hf3 as [[-> _] | (-> & _ & _)]; [done|].
    unfold is_dir in *. rewrite lookup_insert_ne by path_neq.
    rewrite lookup_insert_ne; [done|].
    intros E. apply (pkg_not_staged tf). rewrite <- E. apply deb_bin_staged. }
  destruct H3 as [H3o H3k].
  exists (exec_all (packing pack) (copy_cmds tf) f3).1.
  rewrite <- (parent_deb tf).
  erewrite dpkg_writes; [| reflexivity | |].
  - simpl. split; [apply lookup_insert_eq|].
    intros p Hp. by rewrite lookup_insert_ne.
  - by rewrite copied_is_dir.
  - by rewrite copied_is_dir, parent_deb_file.
Qed.

Lemma archive_made_from_final_tree_witness :
  ∃ g : FS, fs (run tool sample_archiver fresh_tree []).2 !! deb_file tool
       = Some (File [x21; x3c; x61; x72; x63; x68; x3e]) ∧
       ∀ p, p ≠ deb_file tool →
            g !! p = fs (run tool sample_archiver fresh_tree []).2 !! p.
Proof.
  refine (archive_made_from_final_tree tool
            (λ _ _, [x21; x3c; x61; x72; x63; x68; x3e]) fresh_tree [] _ _ _).
  - vm_compute. reflexivity.
  - vm_compute. reflexivity.
  - vm_compute. reflexivity.
Defined.
